(** * Surmai trip planner: expenses panel, flight form and expense repository

    A shallow embedding of

    - [src/lib/api/pocketbase/expenses.ts] (the expense repository),
    - [src/components/trip/expenses/ExpensesPanel.tsx],
    - [src/components/trip/transportation/FlightForm.tsx],
    - [src/app/Surmai.tsx],

    and the properties of their save, delete, sort and aggregation paths.

    Conventions of the embedding.

    - A money amount is the decimal number that is stored and shown, an exact
      rational ([Qc]); truthiness of a number is [n <> 0].  The program
      computes with the binary64 numbers nearest to these amounts.  Tests,
      comparisons, the sign of a difference and the addition of zero give
      the same answer on both, and the handlers, the sort and the payloads
      are stated over the exact amounts.  Sums of several amounts do not:
      module [Binary64] repeats the reductions of the panel in IEEE 754
      arithmetic, over the primitive floats, and what is said about the
      totals the program computes is said there.  [NaN] and the infinities do
      not arise from amounts.
    - A string is its sequence of code units, all below 256.
    - A value that may be [undefined]/[null] is an [option].
    - React state is a record; a handler reads the values captured by its
      closure and returns the state after the updates it queued.
    - Calls that leave the component (repository, attachment upload, query
      cache, notifications, modals) are appended to a log of [Effect]s; what
      a remote call answers is given by a [Remote], whose [None] stands for a
      rejected promise. *)

From Stdlib Require Import QArith Qcanon Qround String Ascii.
From Stdlib Require PrimFloat Uint63.
From stdpp Require Import gmap strings list fin_maps sorting.

Local Open Scope string_scope.
Local Open Scope list_scope.

(** ** JavaScript values *)

Module Js.

(** [number], as a decimal amount. *)
Abbreviation number := Qc.

#[global] Instance number_eq_dec : EqDecision number := Qc_eq_dec.

Definition num (z : Z) : number := Q2Qc (inject_Z z).

(** [!!n] for a number: [0] is falsy. *)
Definition truthy_number (n : number) : bool := negb (bool_decide (n = 0%Qc)).

(** [!!s] for a string: the empty string is falsy. *)
Definition truthy_string (s : string) : bool := negb (bool_decide (s = "")).

(** [n || d] on numbers. *)
Definition number_or (n d : number) : number := if truthy_number n then n else d.

(** [s || d] on strings. *)
Definition string_or (s d : string) : string := if truthy_string s then s else d.

(** The quotation mark, for template strings that contain one. *)
Definition dquote : string := String (Ascii.ascii_of_nat 34) EmptyString.

(** Values that occur in the objects sent to the backend. *)
#[warnings="-register-all"]
Inductive JsValue : Type :=
| JUndefined
| JNumber (n : number)
| JString (s : string)
| JStrings (ss : list string)
| JRecord (fields : list (string * JsValue)).

(** An object literal [{ k1: v1, ... }]; a later field of the same name wins,
    as in JavaScript. *)
Definition object (fields : list (string * JsValue)) : gmap string JsValue :=
  list_to_map (reverse fields).

(** [{ value, currency }] *)
Definition money_record (value : JsValue) (currency : string) : JsValue :=
  JRecord [("value", value); ("currency", JString currency)].

End Js.

(** ** The records of [types/trips.ts] that the components read *)

Module Trips.
Import Js.

Record Money : Type := { value : number; currency : string }.

#[global] Instance Money_eq_dec : EqDecision Money.
Proof. solve_decision. Defined.

(** The expense categories, the keys of [EXPENSE_CATEGORY_DATA]. *)
Inductive Category : Type :=
| lodging | transportation | food | entertainment | shopping | activities
| healthcare | communication | insurance | visa_fees | souvenirs | tips | other.

#[global] Instance Category_eq_dec : EqDecision Category.
Proof. solve_decision. Defined.

Definition category_key (c : Category) : string :=
  match c with
  | lodging => "lodging" | transportation => "transportation" | food => "food"
  | entertainment => "entertainment" | shopping => "shopping"
  | activities => "activities" | healthcare => "healthcare"
  | communication => "communication" | insurance => "insurance"
  | visa_fees => "visa_fees" | souvenirs => "souvenirs" | tips => "tips"
  | other => "other"
  end.

(** [EXPENSE_CATEGORY_DATA[c].label], with the default text of each
    translation key. *)
Definition category_label (c : Category) : string :=
  match c with
  | lodging => "Lodging" | transportation => "Transportation" | food => "Food"
  | entertainment => "Entertainment" | shopping => "Shopping"
  | activities => "Activities" | healthcare => "Healthcare"
  | communication => "Communication" | insurance => "Insurance"
  | visa_fees => "Visa Fees" | souvenirs => "Souvenirs" | tips => "Tips"
  | other => "Other"
  end.

Record Attachment : Type := { att_id : string; att_name : string }.

(** A browser [File] picked in the form; only its name is read. *)
Record File : Type := { file_name : string }.

(** An expense as the panel sees it: the stored record, plus the
    [convertedCost] that [convertExpenses] attaches for display. *)
Record Expense : Type := {
  id : string;
  trip : string;
  name : string;
  cost : option Money;
  occurredOn : option string;
  category : option Category;
  notes : option string;
  attachmentReferences : option (list string);
  convertedCost : option Money;
}.

Record Trip : Type := { trip_id : string; budget : option Money }.

Record User : Type := { currencyCode : option string }.

Record ConversionRate : Type := {
  rate_from : string; rate_to : string; rate : number }.

End Trips.

(** ** Calls that leave a component *)

Module Api.
Import Js.

(** One entry per call, in the order the calls are made. *)
Inductive Effect : Type :=
| UploadAttachments (tripId : string) (files : list Trips.File)
| CreateExpense (payload : gmap string JsValue)
| UpdateExpense (expenseId : string) (payload : gmap string JsValue)
| DeleteExpense (expenseId : string)
| CreateTransportationEntry (payload : gmap string JsValue)
| UpdateTransportation (transportationId : string) (payload : gmap string JsValue)
| InvalidateQueries (queryKey : list string)
| OpenConfirmModal (title body confirmLabel cancelLabel : string)
| ShowErrorNotification (title message : string)
| ShowDeleteNotification (title message : string)
| OnSuccess.

(** What the backend answers to each asynchronous call; [None] is a rejected
    promise. *)
Record Remote : Type := {
  uploadAttachments : string -> list Trips.File -> option (list Trips.Attachment);
  createExpense : gmap string JsValue -> option Trips.Expense;
  updateExpense : string -> gmap string JsValue -> option Trips.Expense;
  deleteExpense : string -> option unit;
  createTransportationEntry : gmap string JsValue -> option unit;
  updateTransportation : string -> gmap string JsValue -> option unit;
  invalidateQueries : list string -> option unit;
}.

(** The result of running a block of an [async] function. *)
Inductive Outcome (A : Type) : Type :=
| Returned (a : A)
| Thrown.
Arguments Returned {A} a.
Arguments Thrown {A}.

(** An [async] block over component state [S]: it reads and queues updates of
    the state, logs its calls, and returns or throws. *)
Definition Async (S A : Type) : Type := S -> list Effect -> Outcome A * S * list Effect.

Definition ret {S A} (a : A) : Async S A := fun s log => (Returned a, s, log).

Definition bind {S A B} (m : Async S A) (k : A -> Async S B) : Async S B :=
  fun s log =>
    match m s log with
    | (Returned a, s', log') => k a s' log'
    | (Thrown, s', log') => (Thrown, s', log')
    end.

(** A state setter ([setSaving(true)] and the like). *)
Definition update {S} (f : S -> S) : Async S unit := fun s log => (Returned tt, f s, log).

(** A call that cannot fail (notifications, modals, callbacks). *)
Definition emit {S} (e : Effect) : Async S unit := fun s log => (Returned tt, s, log ++ [e]).

(** [await call]: the call is logged; a rejected promise throws. *)
Definition await {S A} (e : Effect) (answer : option A) : Async S A :=
  fun s log =>
    match answer with
    | Some a => (Returned a, s, log ++ [e])
    | None => (Thrown, s, log ++ [e])
    end.

(** [try { body } catch { handler } finally { final }] *)
Definition try_catch_finally {S} (body handler final : Async S unit) : Async S unit :=
  fun s log =>
    match body s log with
    | (Returned _, s', log') => final s' log'
    | (Thrown, s', log') => bind handler (fun _ => final) s' log'
    end.

Definition run {S A} (m : Async S A) (s : S) : Outcome A * S * list Effect := m s [].

Definition state_of {S A} (r : Outcome A * S * list Effect) : S := snd (fst r).
Definition effects_of {S A} (r : Outcome A * S * list Effect) : list Effect := snd r.
Definition outcome_of {S A} (r : Outcome A * S * list Effect) : Outcome A := fst (fst r).

Declare Scope async_scope.
Delimit Scope async_scope with async.
Notation "x <- m ;; k" := (bind m (fun x => k))
  (at level 100, m at next level, right associativity) : async_scope.
Notation "m ;;; k" := (bind m (fun _ => k))
  (at level 100, right associativity) : async_scope.

(** Expense-repository calls among the effects, with the payload they send. *)
Definition expense_payload (e : Effect) : option (gmap string JsValue) :=
  match e with
  | CreateExpense p => Some p
  | UpdateExpense _ p => Some p
  | _ => None
  end.

(** The transportation payload among the effects, if one was sent. *)
Definition savedTransportation (effects : list Effect) : option (gmap string JsValue) :=
  head (omap (fun e => match e with
                       | CreateTransportationEntry p | UpdateTransportation _ p => Some p
                       | _ => None
                       end) effects).

Definition is_repository_call (e : Effect) : bool :=
  match e with
  | UploadAttachments _ _ | CreateExpense _ | UpdateExpense _ _ | DeleteExpense _
  | CreateTransportationEntry _ | UpdateTransportation _ _ => true
  | _ => false
  end.

End Api.

(** ** Arrays, plain objects and strings *)

Module JsArray.
Import Js.

Section Sort.
Context {A : Type} (compareFn : A -> A -> number).

(** [x] goes before the first element it compares strictly smaller than or
    equal to; scanning from the left keeps [x], which stood before all of
    [l], in front of its equals. *)
Fixpoint insert_sorted (x : A) (l : list A) : list A :=
  match l with
  | [] => [x]
  | y :: l' =>
      match (compareFn x y ?= 0)%Qc with
      | Gt => y :: insert_sorted x l'
      | _ => x :: l
      end
  end.

(** [[...l].sort(compareFn)].  The language fixes the result for a consistent
    comparator: the sorted permutation that keeps equal elements in their
    original order (the sort is stable); insertion from the right computes
    it. *)
Definition sort (l : list A) : list A := foldr insert_sorted [] l.

End Sort.

(** A plain object used as a record from keys to values, in the order
    [Object.entries] lists it: the order in which the keys were first set
    (the keys here are never integer-like). *)
Section Entries.
Context {K V : Type} `{EqDecision K}.

(** [o[k]] *)
Fixpoint get (o : list (K * V)) (k : K) : option V :=
  match o with
  | [] => None
  | (k', v) :: o' => if decide (k = k') then Some v else get o' k
  end.

(** [o[k] = v] *)
Fixpoint set (o : list (K * V)) (k : K) (v : V) : list (K * V) :=
  match o with
  | [] => [(k, v)]
  | (k', v') :: o' => if decide (k = k') then (k, v) :: o' else (k', v') :: set o' k v
  end.

End Entries.

(** [s.trim()] strips white space and line terminators from both ends.  Of
    the code units below 256 these are the tab, the line feed, the vertical
    tab, the form feed, the carriage return (9 to 13), the space (32) and
    the no-break space (160). *)
Definition is_space (c : Ascii.ascii) : bool :=
  let n := Ascii.nat_of_ascii c in
  bool_decide (n = 32 \/ (9 <= n /\ n <= 13) \/ n = 160)%nat.

Fixpoint trim_start (cs : list Ascii.ascii) : list Ascii.ascii :=
  match cs with
  | c :: cs' => if is_space c then trim_start cs' else cs
  | [] => []
  end.

Definition trim (s : string) : string :=
  String.string_of_list_ascii
    (rev (trim_start (rev (trim_start (String.list_ascii_of_string s))))).

End JsArray.

(** ** The expense normalizer *)

Module Helper.
Import Js Trips.

(** Round to two decimal places, halves up. *)
Definition round2 (x : number) : number :=
  Q2Qc (inject_Z (Qfloor (x * num 100 + Q2Qc (1 # 2))%Qc) / inject_Z 100).

(** The display currency: the trip's budget currency, else the user's
    currency, else the default code. *)
Definition targetCurrency (user : option User) (trip : Trip) : string :=
  match budget trip with
  | Some b => currency b
  | None =>
      match user with
      | Some {| currencyCode := Some c |} => c
      | _ => "USD"
      end
  end.

Definition findRate (rates : list ConversionRate) (from to : string)
  : option ConversionRate :=
  List.find (fun r => bool_decide (rate_from r = from) && bool_decide (rate_to r = to)) rates.

Definition withConvertedCost (e : Expense) (c : option Money) : Expense :=
  {| id := id e; trip := trip e; name := name e; cost := cost e;
     occurredOn := occurredOn e; category := category e; notes := notes e;
     attachmentReferences := attachmentReferences e; convertedCost := c |}.

(** Modelled from the spec: [convertExpenses] of
    [components/trip/expenses/helper.ts], which is not among the sources.
    Section 4.1 of the specification, steps 1 to 3: a cost already in the
    target currency is kept as it is; otherwise the rate from the expense's
    currency to the target is looked up, the converted value is
    [cost.value * rate] rounded to two decimal places, and without a rate the
    field is left absent. *)
Definition convertExpenses (user : option User) (trip : Trip)
    (rawExpenses : list Expense) (rates : list ConversionRate) : list Expense :=
  let target := targetCurrency user trip in
  map (fun e =>
         match cost e with
         | None => withConvertedCost e None
         | Some c =>
             if bool_decide (currency c = target) then withConvertedCost e (Some c)
             else
               match findRate rates (currency c) target with
               | Some r =>
                   withConvertedCost e
                     (Some {| value := round2 (value c * rate r)%Qc; currency := target |})
               | None => withConvertedCost e None
               end
         end) rawExpenses.

End Helper.

(** ** [ExpensesPanel.tsx] *)

Module ExpensesPanel.
Import Js Trips Api.

Inductive SortColumn : Type := by_date | by_category | by_amount.
Inductive SortDirection : Type := asc | desc.

(** The properties of the component and what [useCurrentUser] returns. *)
Record Props : Type := {
  p_trip : Trip;
  p_tripAttachments : option (list Attachment);
  p_user : option User;
}.

(** The [useState] cells.  [amount] is [number | '']: the empty input is
    [None]. *)
Record State : Type := {
  isModalOpen : bool;
  selectedExpense : option Expense;
  saving : bool;
  sortBy : option SortColumn;
  sortDirection : SortDirection;
  name : string;
  amount : option number;
  currency : string;
  occurredOn : option string;
  notes : string;
  category : option Category;
  files : list File;
  existingAttachments : list Attachment;
}.

(** The state with the form cells replaced. *)
Definition with_form (st : State) (n : string) (a : option number) (c : string)
    (o : option string) (nt : string) (cat : option Category)
    (fs : list File) (ex : list Attachment) : State :=
  {| isModalOpen := isModalOpen st; selectedExpense := selectedExpense st;
     saving := saving st; sortBy := sortBy st; sortDirection := sortDirection st;
     name := n; amount := a; currency := c; occurredOn := o; notes := nt;
     category := cat; files := fs; existingAttachments := ex |}.

Definition setIsModalOpen (b : bool) (st : State) : State :=
  {| isModalOpen := b; selectedExpense := selectedExpense st;
     saving := saving st; sortBy := sortBy st; sortDirection := sortDirection st;
     name := name st; amount := amount st; currency := currency st;
     occurredOn := occurredOn st; notes := notes st; category := category st;
     files := files st; existingAttachments := existingAttachments st |}.

Definition setSelectedExpense (e : option Expense) (st : State) : State :=
  {| isModalOpen := isModalOpen st; selectedExpense := e;
     saving := saving st; sortBy := sortBy st; sortDirection := sortDirection st;
     name := name st; amount := amount st; currency := currency st;
     occurredOn := occurredOn st; notes := notes st; category := category st;
     files := files st; existingAttachments := existingAttachments st |}.

Definition setSaving (b : bool) (st : State) : State :=
  {| isModalOpen := isModalOpen st; selectedExpense := selectedExpense st;
     saving := b; sortBy := sortBy st; sortDirection := sortDirection st;
     name := name st; amount := amount st; currency := currency st;
     occurredOn := occurredOn st; notes := notes st; category := category st;
     files := files st; existingAttachments := existingAttachments st |}.

(** [trip.budget?.currency || user?.currencyCode || 'USD'] *)
Definition defaultCurrency (props : Props) : string :=
  string_or (default "" (Trips.currency <$> budget (p_trip props)))
    (string_or (default "" (p_user props ≫= currencyCode)) "USD").

Definition resetForm (props : Props) (st : State) : State :=
  with_form st "" None (defaultCurrency props) None "" None [] [].

Definition closeModal (props : Props) (st : State) : State :=
  resetForm props (setSelectedExpense None (setIsModalOpen false st)).

Definition openModalForAdd (props : Props) (st : State) : State :=
  setIsModalOpen true (setSelectedExpense None (resetForm props st)).

Definition openModalForEdit (props : Props) (expense : Expense) (st : State) : State :=
  let refs := default [] (attachmentReferences expense) in
  let atts :=
    filter (fun a => att_id a ∈ refs) (default [] (p_tripAttachments props)) in
  setIsModalOpen true (setSelectedExpense (Some expense)
    (with_form st
       (Trips.name expense)
       (match cost expense with
        | Some c => if truthy_number (value c) then Some (value c) else None
        | None => None
        end)
       (match cost expense with
        | Some c => string_or (Trips.currency c) (defaultCurrency props)
        | None => defaultCurrency props
        end)
       (match Trips.occurredOn expense with
        | Some d => if truthy_string d then Some d else None
        | None => None
        end)
       (match Trips.notes expense with Some n => n | None => "" end)
       (Trips.category expense)
       (files st)
       atts)).

(** [!name || !amount || !currency]: the guard of [onSave] and the
    [disabled] property of the save button. *)
Definition saveBlocked (st : State) : bool :=
  negb (truthy_string (name st))
  || negb (match amount st with Some a => truthy_number a | None => false end)
  || negb (truthy_string (currency st)).

Definition saveButtonDisabled (st : State) : bool := saveBlocked st.

(** *** Saving and deleting *)

Section Handlers.

(** [fakeAsUtcString] of [lib/time.ts], which is not among the sources. *)
Variable fakeAsUtcString : string -> string.
Variable remote : Remote.
Variable props : Props.

(** [Number(amount)] for the [number | ''] of the amount cell. *)
Definition Number (a : option number) : number := default 0%Qc a.

(** The object [onSave] sends to the repository. *)
Definition savePayload (st : State) (allAttachmentIds : list string)
  : gmap string JsValue :=
  object [
    ("name", JString (JsArray.trim (name st)));
    ("trip", JString (trip_id (p_trip props)));
    ("cost", money_record (JNumber (Number (amount st))) (currency st));
    ("occurredOn",
       match occurredOn st with
       | Some d => if truthy_string d then JString (fakeAsUtcString d) else JUndefined
       | None => JUndefined
       end);
    ("notes",
       let n := JsArray.trim (notes st) in
       if truthy_string n then JString n else JUndefined);
    ("category", from_option (fun c => JString (category_key c)) JUndefined (category st));
    ("attachmentReferences", JStrings allAttachmentIds)
  ].

(** The [try] block of [onSave]. *)
Definition saveBody (st : State) : Async State unit :=
  (uploadedAttachments <-
     await (UploadAttachments (trip_id (p_trip props)) (files st))
           (uploadAttachments remote (trip_id (p_trip props)) (files st)) ;;
   let newAttachmentIds := map att_id uploadedAttachments in
   let existingAttachmentIds := map att_id (existingAttachments st) in
   let allAttachmentIds := existingAttachmentIds ++ newAttachmentIds in
   let payload := savePayload st allAttachmentIds in
   (match selectedExpense st with
    | Some e =>
        _ <- await (UpdateExpense (id e) payload) (updateExpense remote (id e) payload) ;;
        ret tt
    | None =>
        _ <- await (CreateExpense payload) (createExpense remote payload) ;;
        ret tt
    end) ;;;
   await (InvalidateQueries ["listExpenses"; trip_id (p_trip props)])
         (invalidateQueries remote ["listExpenses"; trip_id (p_trip props)]) ;;;
   await (InvalidateQueries ["getTripAttachments"; trip_id (p_trip props)])
         (invalidateQueries remote ["getTripAttachments"; trip_id (p_trip props)]) ;;;
   update (closeModal props))%async.

(** The [catch] block of [onSave]. *)
Definition saveFailed (st : State) : Async State unit :=
  emit (ShowErrorNotification
          (match selectedExpense st with
           | Some _ => "Failed to update expense"
           | None => "Failed to create expense"
           end)
          "Please try again later.").

(** [onSave], run on the state its closure captured. *)
Definition onSave (st : State) : Outcome unit * State * list Effect :=
  run (if saveBlocked st then ret tt
       else (update (setSaving true) ;;;
             try_catch_finally (saveBody st) (saveFailed st)
               (update (setSaving false)))%async) st.

(** What [onSave] asks of the form: a name, an amount that is a number other
    than zero, and a currency code. *)
Definition saveRequirements (st : State) : Prop :=
  name st <> "" /\ (exists a, amount st = Some a /\ a <> 0%Qc) /\ currency st <> "".

(** The repository call of a save whose upload returned [uploaded], and the
    backend's answer to it. *)
Definition saveCall (st : State) (uploaded : list Attachment) : Effect :=
  let payload :=
    savePayload st (map att_id (existingAttachments st) ++ map att_id uploaded) in
  match selectedExpense st with
  | Some e => UpdateExpense (id e) payload
  | None => CreateExpense payload
  end.

Definition saveCallAnswer (st : State) (uploaded : list Attachment) : option Expense :=
  let payload :=
    savePayload st (map att_id (existingAttachments st) ++ map att_id uploaded) in
  match selectedExpense st with
  | Some e => updateExpense remote (id e) payload
  | None => createExpense remote payload
  end.

(** The upload or the repository call of a save is rejected. *)
Definition saveCallFails (st : State) : Prop :=
  uploadAttachments remote (trip_id (p_trip props)) (files st) = None
  \/ exists uploaded,
       uploadAttachments remote (trip_id (p_trip props)) (files st) = Some uploaded
       /\ saveCallAnswer st uploaded = None.

Inductive ConfirmChoice : Type := Confirm | Cancel.

(** [removeExpense] is the [mutate] of
    [useMutation({ mutationFn: deleteExpense, onSuccess })].  [mutate] only
    schedules the mutation and returns at once: the library awaits its
    [onMutate] hooks before it calls [mutationFn], so [deleteExpense] is
    called in a later microtask, when the handler that called [mutate] has
    run to its end. *)
Definition removeExpense (expenseId : string) : Async State unit := ret tt.

(** The scheduled mutation: [mutationFn] calls [deleteExpense]; when the call
    is answered, [onSuccess] invalidates the expense list.  There is no
    [onError], and a rejection (of the call or of [onSuccess]) stays inside
    the mutation. *)
Definition mutationRun (expenseId : string) : Async State unit :=
  try_catch_finally
    (await (DeleteExpense expenseId) (deleteExpense remote expenseId) ;;;
     await (InvalidateQueries ["listExpenses"; trip_id (p_trip props)])
           (invalidateQueries remote ["listExpenses"; trip_id (p_trip props)]))%async
    (ret tt) (ret tt).

(** The text of the confirmation dialog. *)
Definition deletionConfirmation (expenseName : string) : string :=
  "Deleting " +:+ dquote +:+ expenseName +:+ dquote +:+ ". This action cannot be undone.".

(** The [onConfirm] callback of the dialog. *)
Definition onConfirm (e : Expense) : Async State unit :=
  (removeExpense (id e) ;;;
   emit (ShowDeleteNotification "Expenses"
           ("Expense " +:+ Trips.name e +:+ " has been deleted")) ;;;
   update (closeModal props))%async.

(** [handleDelete], followed by the user's answer to the dialog and, after a
    confirmation, by the mutation that [onConfirm] scheduled. *)
Definition handleDelete (choice : ConfirmChoice) (st : State)
  : Outcome unit * State * list Effect :=
  run (match selectedExpense st with
       | None => ret tt
       | Some e =>
           (emit (OpenConfirmModal "Delete Expense"
                    (deletionConfirmation (Trips.name e)) "Delete" "Cancel") ;;;
            match choice with
            | Cancel => ret tt
            | Confirm => onConfirm e ;;; mutationRun (id e)
            end)%async
       end) st.

End Handlers.

(** *** What the panel derives from the expense list *)

Section View.

(** [new Date(d).getTime()], [a.localeCompare(b)] and
    [dayjs(d).format('ll')] are the platform's. *)
Variable getTime : string -> number.
Variable localeCompare : string -> string -> number.
Variable formatDate : string -> string.
(** [convertExpenses] of [helper.ts], which is not among the sources: it
    returns the expenses with [convertedCost] filled in where a cost could be
    expressed in the display currency. *)
Variable convertExpenses :
  option User -> Trip -> list Expense -> list ConversionRate -> list Expense.

(** [e.convertedCost?.value || 0] *)
Definition amountOf (e : Expense) : number :=
  match convertedCost e with
  | Some c => number_or (value c) 0%Qc
  | None => 0%Qc
  end.

(** [e.occurredOn ? new Date(e.occurredOn).getTime() : 0] *)
Definition timeOf (e : Expense) : number :=
  match Trips.occurredOn e with
  | Some d => if truthy_string d then getTime d else 0%Qc
  | None => 0%Qc
  end.

(** [e.category || ''] *)
Definition categoryOf (e : Expense) : string :=
  match Trips.category e with
  | Some c => category_key c
  | None => ""
  end.

(** The comparator handed to [sort]. *)
Definition compareExpenses (sortBy : option SortColumn) (direction : SortDirection)
    (a b : Expense) : number :=
  match sortBy with
  | None => 0%Qc
  | Some column =>
      let comparison :=
        match column with
        | by_date => (timeOf a - timeOf b)%Qc
        | by_category => localeCompare (categoryOf a) (categoryOf b)
        | by_amount => (amountOf a - amountOf b)%Qc
        end in
      match direction with
      | asc => comparison
      | desc => (- comparison)%Qc
      end
  end.

Definition sortedExpenses (sortBy : option SortColumn) (direction : SortDirection)
    (expenses : list Expense) : list Expense :=
  JsArray.sort (compareExpenses sortBy direction) expenses.

(** The total and the category totals over the exact amounts;
    [Binary64.totalExpenses] and [Binary64.categoryTotals] are the same
    reductions in the arithmetic of the program. *)
Definition totalExpenses (sorted : list Expense) : number :=
  fold_left (fun sum exp => (sum + amountOf exp)%Qc) sorted 0%Qc.

(** [exp.category || 'other'] *)
Definition categoryTag (exp : Expense) : string :=
  match Trips.category exp with
  | Some c => category_key c
  | None => "other"
  end.

(** [(acc[cat] || 0)] *)
Definition totalSoFar (acc : list (string * number)) (cat : string) : number :=
  match JsArray.get acc cat with
  | Some n => number_or n 0%Qc
  | None => 0%Qc
  end.

Definition categoryTotals (sorted : list Expense) : list (string * number) :=
  fold_left
    (fun acc exp =>
       let cat := categoryTag exp in
       JsArray.set acc cat (totalSoFar acc cat + amountOf exp)%Qc)
    sorted [].

(** [Object.entries(categoryTotals).sort(([, a], [, b]) => b - a)] *)
Definition sortedCategories (sorted : list Expense) : list (string * number) :=
  JsArray.sort (fun x y => (snd y - snd x)%Qc) (categoryTotals sorted).

Definition attachmentsOf (tripAttachments : option (list Attachment)) (e : Expense)
  : list Attachment :=
  default []
    ((fun atts =>
        List.filter (fun a => match attachmentReferences e with
                              | Some refs => bool_decide (att_id a ∈ refs)
                              | None => false
                              end) atts) <$> tripAttachments).

Definition expenseAttachmentsMap (tripAttachments : option (list Attachment))
    (expenses : list Expense) : gmap string (list Attachment) :=
  fold_left (fun m e => <[id e := attachmentsOf tripAttachments e]> m) expenses ∅.

(** What one card of the grid shows. *)
Record ExpenseCard : Type := {
  card_key : string;
  card_name : string;
  card_date : option string;
  card_category : string;
  card_amount : option (number * string);
  card_attachments : option (list Attachment);
}.

Definition expenseCard (attachments : gmap string (list Attachment)) (exp : Expense)
  : ExpenseCard :=
  {| card_key := id exp;
     card_name := Trips.name exp;
     card_date :=
       match Trips.occurredOn exp with
       | Some d => if truthy_string d then Some (formatDate d) else None
       | None => None
       end;
     card_category := category_label (default other (Trips.category exp));
     card_amount :=
       match convertedCost exp with
       | Some c => Some (value c, Trips.currency c)
       | None => None
       end;
     card_attachments := attachments !! id exp |}.

Definition expenseCards (tripAttachments : option (list Attachment))
    (expenses sorted : list Expense) : list ExpenseCard :=
  map (expenseCard (expenseAttachmentsMap tripAttachments expenses)) sorted.

(** The lower part of the panel. *)
Inductive ExpenseList : Type :=
| Loader
| NoExpensesYet
| Grid (cards : list ExpenseCard).

(** Everything below the sort selector, from the fetched expenses and
    rates. *)
Record Rendered : Type := {
  r_total : number;
  r_categories : list (string * number);
  r_list : ExpenseList;
}.

Definition render (props : Props) (st : State) (isLoading : bool)
    (rawExpenses : option (list Expense)) (rates : option (list ConversionRate))
  : Rendered :=
  let expenses :=
    convertExpenses (p_user props) (p_trip props)
      (default [] rawExpenses) (default [] rates) in
  let sorted := sortedExpenses (sortBy st) (sortDirection st) expenses in
  {| r_total := totalExpenses sorted;
     r_categories := sortedCategories sorted;
     r_list :=
       if isLoading then Loader
       else if bool_decide (length sorted = 0%nat) then NoExpensesYet
       else Grid (expenseCards (p_tripAttachments props) expenses sorted) |}.

End View.

(** *** The aggregation as the specification words it *)

(** The tags of a list in the order in which each is first met. *)
Fixpoint firstSeen (tags : list string) : list string :=
  match tags with
  | [] => []
  | t :: ts => t :: filter (fun t' => t' <> t) (firstSeen ts)
  end.

Definition sumOf (ns : list number) : number := foldr Qcplus 0%Qc ns.

(** The sum of the converted amounts of the expenses of one tag. *)
Definition groupTotal (tag : string) (expenses : list Expense) : number :=
  sumOf (map amountOf (filter (fun e => categoryTag e = tag) expenses)).

(** One group per tag, in the order of first encounter, each with its sum. *)
Definition categoryGroups (expenses : list Expense) : list (string * number) :=
  map (fun tag => (tag, groupTotal tag expenses)) (firstSeen (map categoryTag expenses)).

(** The words of the specification about an expense, written without the
    functions of the panel: its category, an absent one counting as the tag
    [other]; the expenses of one category; the [convertedCost] values of the
    expenses that have one; a sum added up from the left, starting at 0. *)
Definition categoryOrOther (e : Expense) : string :=
  from_option category_key "other" (Trips.category e).

Definition expensesOf (tag : string) (expenses : list Expense) : list Expense :=
  filter (fun e => categoryOrOther e = tag) expenses.

Definition convertedValues (expenses : list Expense) : list number :=
  omap (fun e => value <$> convertedCost e) expenses.

Definition runningSum (values : list number) : number := fold_left Qcplus values 0%Qc.

(** The sort keys as the specification words them: an absent converted cost
    is the amount 0, an absent (or empty) date is the time 0, an absent
    category is the empty string. *)
Definition amountOrZero (e : Expense) : number := from_option value 0%Qc (convertedCost e).

Definition timeOrZero (getTime : string -> number) (e : Expense) : number :=
  match Trips.occurredOn e with
  | Some d => if decide (d = "") then 0%Qc else getTime d
  | None => 0%Qc
  end.

Definition categoryOrEmpty (e : Expense) : string :=
  from_option category_key "" (Trips.category e).

(** *** The rate query, the budget card and the category card *)

(** [Array.from(new Set(codes))]: each code once, in the order first
    inserted. *)
Definition currencyCodes (props : Props) (rawExpenses : option (list Expense))
  : list string :=
  let expenseCurrencies :=
    map (fun e => string_or (default "" (Trips.currency <$> cost e)) "USD")
      <$> rawExpenses in
  firstSeen
    ([string_or (default "" (Trips.currency <$> budget (p_trip props))) "USD";
      string_or (default "" (p_user props ≫= currencyCode)) "USD"]
       ++ default [] expenseCurrencies).

(** [trip.budget?.value || 0] and [trip.budget?.currency || 'USD'] *)
Definition budgetAmount (props : Props) : number :=
  number_or (default 0%Qc (value <$> budget (p_trip props))) 0%Qc.

Definition budgetCurrency (props : Props) : string :=
  string_or (default "" (Trips.currency <$> budget (p_trip props))) "USD".

(** [Math.min(a, b)] *)
Definition Math_min (a b : number) : number :=
  match (a ?= b)%Qc with
  | Gt => b
  | _ => a
  end.

(** [budgetAmount > 0 ? Math.min((totalExpenses / budgetAmount) * 100, 100) : 0] *)
Definition budgetPercentage (props : Props) (total : number) : number :=
  match (budgetAmount props ?= 0)%Qc with
  | Gt => Math_min ((total / budgetAmount props) * num 100)%Qc (num 100)
  | _ => 0%Qc
  end.

(** The colour of the budget ring. *)
Definition budgetColor (percentage : number) : string :=
  match (percentage ?= num 90)%Qc with
  | Gt => "red"
  | _ =>
      match (percentage ?= num 75)%Qc with
      | Gt => "orange"
      | _ => "blue"
      end
  end.

End ExpensesPanel.

(** ** The totals of the panel in the arithmetic of the program *)

Module Binary64.
Import Js Trips ExpensesPanel.

(** A JavaScript [number]: an IEEE 754 binary64. *)
Abbreviation float := PrimFloat.float.

(** An integer of magnitude below [2^63] as a binary64. *)
Definition of_Z (z : Z) : float :=
  match z with
  | Z0 => PrimFloat.zero
  | Zpos p => PrimFloat.of_uint63 (Uint63.of_Z (Zpos p))
  | Zneg p => PrimFloat.opp (PrimFloat.of_uint63 (Uint63.of_Z (Zpos p)))
  end.

(** The number that a decimal amount is in the program: the binary64 nearest
    to it.  (The amount is the quotient of two integers; for integers below
    [2^53], as the numerator and denominator of a money amount are, the
    division rounds once, to nearest.) *)
Definition read (amount : number) : float :=
  PrimFloat.div (of_Z (Qnum amount)) (of_Z (Zpos (Qden amount))).

(** [!!x]: [0], [-0] and [NaN] are falsy. *)
Definition truthy_number (x : float) : bool :=
  negb (PrimFloat.eqb x PrimFloat.zero || PrimFloat.is_nan x).

(** [x || d] *)
Definition number_or (x d : float) : float := if truthy_number x then x else d.

(** [exp.convertedCost?.value || 0] *)
Definition amountOf (e : Expense) : float :=
  match convertedCost e with
  | Some c => number_or (read (value c)) PrimFloat.zero
  | None => PrimFloat.zero
  end.

(** [sortedExpenses.reduce((sum, exp) => sum + (exp.convertedCost?.value || 0), 0)] *)
Definition totalExpenses (sorted : list Expense) : float :=
  fold_left (fun sum exp => PrimFloat.add sum (amountOf exp)) sorted PrimFloat.zero.

(** [(acc[cat] || 0)] *)
Definition totalSoFar (acc : list (string * float)) (cat : string) : float :=
  match JsArray.get acc cat with
  | Some n => number_or n PrimFloat.zero
  | None => PrimFloat.zero
  end.

Definition categoryTotals (sorted : list Expense) : list (string * float) :=
  fold_left
    (fun acc exp =>
       let cat := categoryTag exp in
       JsArray.set acc cat (PrimFloat.add (totalSoFar acc cat) (amountOf exp)))
    sorted [].

(** The same values as the program holds them, and the sum that the
    reduction keeps for one category: [(acc || 0) + v], from [0]. *)
Definition amounts (expenses : list Expense) : list float :=
  map (fun v => number_or (read v) PrimFloat.zero) (convertedValues expenses).

Definition runningSum (values : list float) : float :=
  fold_left (fun acc v => PrimFloat.add (number_or acc PrimFloat.zero) v) values PrimFloat.zero.

End Binary64.

(** ** [lib/api/pocketbase/expenses.ts] *)

Module Repository.
Import Js Trips.

(** The options of the SDK's [getList]. *)
Record ListOptions : Type := { filter : string; sort : string }.

(** The backend's collection as [getList] reads it: of the stored records
    that match the filter expression, put in the requested order, page
    [page] of [perPage] records.  What a filter expression matches and what
    a sort expression orders by are the backend's. *)
Definition collectionGetList
    (matches : string -> Expense -> bool)
    (order : string -> list Expense -> list Expense)
    (stored : list Expense)
    (page perPage : nat) (options : ListOptions) : option (list Expense) :=
  Some (take perPage
          (drop ((page - 1) * perPage)
             (order (sort options) (List.filter (matches (filter options)) stored)))).

Section ListExpenses.

(** [convertSavedToBrowserDate] of [lib/time.ts], which is not among the
    sources. *)
Variable convertSavedToBrowserDate : string -> string.
(** [expenses.getList]; [None] is a rejected promise. *)
Variable getList : nat -> nat -> ListOptions -> option (list Expense).

(** The filter expression [trip="${tripId}"]. *)
Definition tripFilter (tripId : string) : string :=
  "trip=" +:+ dquote +:+ tripId +:+ dquote.

(** [{ ...entry, occurredOn: entry.occurredOn ? convert(entry.occurredOn) : entry.occurredOn }] *)
Definition withBrowserDate (entry : Expense) : Expense :=
  {| id := id entry; trip := trip entry; name := name entry; cost := cost entry;
     occurredOn :=
       match occurredOn entry with
       | Some d => if truthy_string d then Some (convertSavedToBrowserDate d) else Some d
       | None => None
       end;
     category := category entry; notes := notes entry;
     attachmentReferences := attachmentReferences entry;
     convertedCost := convertedCost entry |}.

Definition listExpenses (tripId : string) : option (list Expense) :=
  res ← getList 1 200
          {| filter := tripFilter tripId; sort := "-occurredOn,-created" |};
  Some (map withBrowserDate res).

(** An entry as it should come back for a record of the page, in the words
    of the interface: every field as the backend sent it, except
    [occurredOn], which is converted when it is present (and not empty). *)
Definition returnedFor (item entry : Expense) : Prop :=
  id entry = id item /\ trip entry = trip item /\ name entry = name item
  /\ cost entry = cost item /\ category entry = category item
  /\ notes entry = notes item
  /\ attachmentReferences entry = attachmentReferences item
  /\ convertedCost entry = convertedCost item
  /\ occurredOn entry
     = match occurredOn item with
       | Some d => Some (if decide (d = "") then d else convertSavedToBrowserDate d)
       | None => None
       end.

End ListExpenses.

(** [addAttachmentsToExpense]: the files are uploaded, then their ids are
    sent under the key [attachmentReferences+]; the result is the uploaded
    attachments. *)
Definition addAttachmentsToExpense (remote : Api.Remote)
    (tripId expenseId : string) (files : list File)
  : Api.Outcome (list Attachment) * unit * list Api.Effect :=
  Api.run
    (Api.bind
       (Api.await (Api.UploadAttachments tripId files)
          (Api.uploadAttachments remote tripId files))
       (fun uploaded =>
          let ids := map att_id uploaded in
          Api.bind
            (Api.await
               (Api.UpdateExpense expenseId (object [("attachmentReferences+", JStrings ids)]))
               (Api.updateExpense remote expenseId
                  (object [("attachmentReferences+", JStrings ids)])))
            (fun _ => Api.ret uploaded))) tt.

End Repository.

(** ** [FlightForm.tsx] *)

Module FlightForm.
Import Js Trips Api.

(** The transportation record being edited; the component holds the caller's
    object and assigns to it. *)
Record Transportation : Type := {
  t_id : option string;
  t_expenseId : option string;
  t_attachmentReferences : option (list string);
}.

(** An airport picked from the list, or the text left in the field. *)
Inductive Place : Type :=
| Airport (iataCode : string)
| PlaceText (s : string).

(** The submitted values of the form ([FlightFormSchema]). *)
Record Values : Type := {
  origin : Place;
  destination : Place;
  departureTime : string;
  arrivalTime : string;
  provider : JsValue;
  reservation : JsValue;
  cost : option number;
  currencyCode : string;
  flightNumber : string;
  seats : string;
}.

Record Props : Type := {
  p_trip : Trip;
  p_exitingAttachments : option (list Attachment);
  p_expenseMap : option (gmap string Expense);
}.

(** The [saving] cell, and the caller's [transportation] object. *)
Record State : Type := {
  saving : bool;
  files : list File;
  transportation : option Transportation;
}.

Definition setSaving (b : bool) (st : State) : State :=
  {| saving := b; files := files st; transportation := transportation st |}.

(** [transportation.attachmentReferences = refs; transportation.expenseId = expenseId] *)
Definition assignToTransportation (refs : list string) (expenseId : option string)
    (st : State) : State :=
  {| saving := saving st; files := files st;
     transportation :=
       (fun t => {| t_id := t_id t; t_expenseId := expenseId;
                    t_attachmentReferences := Some refs |}) <$> transportation st |}.

(** A string that is present and not empty. *)
Definition truthy (s : option string) : bool :=
  match s with
  | Some x => truthy_string x
  | None => false
  end.

(** [p.iataCode || p] *)
Definition placeValue (p : Place) : JsValue :=
  match p with
  | Airport code =>
      if truthy_string code then JString code else JRecord [("iataCode", JString code)]
  | PlaceText s => JString s
  end.

(** The same inside a template string. *)
Definition placeText (p : Place) : string :=
  match p with
  | Airport code => if truthy_string code then code else "[object Object]"
  | PlaceText s => s
  end.

Definition placeObject (p : Place) : JsValue :=
  match p with
  | Airport code => JRecord [("iataCode", JString code)]
  | PlaceText s => JString s
  end.

(** [values.cost && values.cost > 0] *)
Definition hasCost (values : Values) : bool :=
  match cost values with
  | Some c => truthy_number c && bool_decide (0 < c)%Qc
  | None => false
  end.

Definition costRecord (values : Values) : JsValue :=
  money_record (from_option JNumber JUndefined (cost values)) (currencyCode values).

Section Submit.

(** [fakeAsUtcString] of [lib/time.ts], which is not among the sources. *)
Variable fakeAsUtcString : string -> string.
Variable remote : Remote.
Variable props : Props.

(** [transportation?.expenseId], dropped when the expense map does not hold
    it. *)
Definition linkedExpenseId (st : State) : option string :=
  let expenseId := transportation st ≫= t_expenseId in
  match p_expenseMap props with
  | Some expenseMap =>
      if truthy expenseId && negb (bool_decide (is_Some (expenseId ≫= (expenseMap !!.))))
      then None else expenseId
  | None => expenseId
  end.

(** The object of a newly created expense. *)
Definition expenseData (values : Values) : gmap string JsValue :=
  object [
    ("name", JString ("Flight: " +:+ placeText (origin values) +:+ " to "
                        +:+ placeText (destination values)));
    ("trip", JString (trip_id (p_trip props)));
    ("cost", costRecord values);
    ("occurredOn", JString (fakeAsUtcString (departureTime values)));
    ("category", JString "transportation")
  ].

(** Creating, updating or deleting the expense according to the cost; the
    result is the new [expenseId]. *)
Definition syncExpense (values : Values) (expenseId : option string)
  : Async State (option string) :=
  (if hasCost values then
     if truthy expenseId then
       _ <- await (UpdateExpense (default "" expenseId) (object [("cost", costRecord values)]))
                  (updateExpense remote (default "" expenseId)
                     (object [("cost", costRecord values)])) ;;
       ret expenseId
     else
       newExpense <- await (CreateExpense (expenseData values))
                           (createExpense remote (expenseData values)) ;;
       ret (Some (id newExpense))
   else if truthy expenseId then
     await (DeleteExpense (default "" expenseId))
           (deleteExpense remote (default "" expenseId)) ;;;
     ret None
   else ret expenseId)%async.

(** The object sent for the transportation itself. *)
Definition transportationPayload (values : Values) : gmap string JsValue :=
  object [
    ("type", JString "flight");
    ("origin", placeValue (origin values));
    ("destination", placeValue (destination values));
    ("cost", costRecord values);
    ("departureTime", JString (fakeAsUtcString (departureTime values)));
    ("arrivalTime", JString (fakeAsUtcString (arrivalTime values)));
    ("trip", JString (trip_id (p_trip props)));
    ("metadata", JRecord [
       ("provider", provider values);
       ("reservation", reservation values);
       ("origin", placeObject (origin values));
       ("destination", placeObject (destination values));
       ("flightNumber", JString (flightNumber values));
       ("seats", JString (seats values))])
  ].

(** The [try] block of [handleFormSubmit]. *)
Definition submitBody (values : Values) (st : State) : Async State unit :=
  (attachments <-
     await (UploadAttachments (trip_id (p_trip props)) (files st))
           (uploadAttachments remote (trip_id (p_trip props)) (files st)) ;;
   expenseId <- syncExpense values (linkedExpenseId st) ;;
   let payload := transportationPayload values in
   (if truthy (transportation st ≫= t_id) then
      update (assignToTransportation
                (map att_id (default [] (p_exitingAttachments props))
                   ++ map att_id attachments)
                expenseId) ;;;
      await (UpdateTransportation (default "" (transportation st ≫= t_id)) payload)
            (updateTransportation remote (default "" (transportation st ≫= t_id)) payload)
    else
      let payload' :=
        <["expenseId" := from_option JString JUndefined expenseId]>
          (<["attachmentReferences" := JStrings (map att_id attachments)]> payload) in
      await (CreateTransportationEntry payload')
            (createTransportationEntry remote payload')) ;;;
   emit OnSuccess)%async.

(** [handleFormSubmit], run on the state its closure captured. *)
Definition handleFormSubmit (values : Values) (st : State)
  : Outcome unit * State * list Effect :=
  run (update (setSaving true) ;;;
       try_catch_finally (submitBody values st)
         (emit (ShowErrorNotification "Unable to save Flight" "Please try again later."))
         (update (setSaving false)))%async st.

End Submit.

(** *** The cost cells of the form's initial values *)

(** [transportation?.expenseId && expenseMap
      ? expenseMap.get(transportation.expenseId) : undefined] *)
Definition linkedExpense (props : Props) (st : State) : option Expense :=
  let expenseId := transportation st ≫= t_expenseId in
  if truthy expenseId then
    match p_expenseMap props with
    | Some expenseMap => expenseId ≫= (expenseMap !!.)
    | None => None
    end
  else None.

(** [cost: expense?.cost?.value] *)
Definition initialCost (props : Props) (st : State) : option number :=
  value <$> (linkedExpense props st ≫= Trips.cost).

(** [currencyCode: expense?.cost?.currency || user?.currencyCode || 'USD'] *)
Definition initialCurrencyCode (props : Props) (user : option User) (st : State) : string :=
  string_or (default "" (Trips.currency <$> (linkedExpense props st ≫= Trips.cost)))
    (string_or (default "" (user ≫= Trips.currencyCode)) "USD").

(** The expense call that [handleFormSubmit] makes after the upload, read off
    its branches. *)
Definition expenseCall (fakeAsUtcString : string -> string) (props : Props)
    (values : Values) (st : State) : list Effect :=
  let expenseId := linkedExpenseId props st in
  if hasCost values then
    if truthy expenseId then
      [UpdateExpense (default "" expenseId) (object [("cost", costRecord values)])]
    else [CreateExpense (expenseData fakeAsUtcString props values)]
  else if truthy expenseId then [DeleteExpense (default "" expenseId)]
  else [].

(** Calls on the expense collection. *)
Definition is_expense_call (e : Effect) : bool :=
  match e with
  | CreateExpense _ | UpdateExpense _ _ | DeleteExpense _ => true
  | _ => false
  end.

(** Calls that change or remove an expense that already exists. *)
Definition touches_existing_expense (e : Effect) : bool :=
  match e with
  | UpdateExpense _ _ | DeleteExpense _ => true
  | _ => false
  end.

(** Calls on the transportation collection. *)
Definition is_transportation_call (e : Effect) : bool :=
  match e with
  | CreateTransportationEntry _ | UpdateTransportation _ _ => true
  | _ => false
  end.

(** The notification of the [catch] block. *)
Definition saveFlightFailed : Effect :=
  ShowErrorNotification "Unable to save Flight" "Please try again later.".

(** A backend that rejects nothing. *)
Definition accepts_all (remote : Remote) : Prop :=
  (forall tripId files, is_Some (uploadAttachments remote tripId files))
  /\ (forall payload, is_Some (createExpense remote payload))
  /\ (forall expenseId payload, is_Some (updateExpense remote expenseId payload))
  /\ (forall expenseId, is_Some (deleteExpense remote expenseId))
  /\ (forall payload, is_Some (createTransportationEntry remote payload))
  /\ (forall transportationId payload,
        is_Some (updateTransportation remote transportationId payload)).

End FlightForm.

(** ** [Surmai.tsx] *)

Module Surmai.
Import Js.

(** The cells of [SurmaiApp] and the locale that [dayjs] currently uses. *)
Record State : Type := {
  primaryColor : string;
  locale : option string;
  dayjsLocale : string;
}.

Definition initial : State :=
  {| primaryColor := "blueGray"; locale := None; dayjsLocale := "en" |}.

(** The [switch] of the first effect: for a language it knows, the [dayjs]
    locale to load and the locale to hand to the date pickers. *)
Definition localeFor (language : string) : option (string * string) :=
  if bool_decide (language = "en-US") then None
  else if bool_decide (language = "es-MX") then Some ("es-mx", "es-mx")
  else if bool_decide (language = "fr") || bool_decide (language = "fr-FR")
       then Some ("fr", "fr-FR")
  else if bool_decide (language = "ja") || bool_decide (language = "ja-JP")
       then Some ("ja", "ja-JP")
  else None.

(** What happens to the application while it is shown. *)
Inductive Event : Type :=
| LanguageEffect (language : string) (imported : bool)
| UserLoaded (colorScheme : option string)
| ChangeColor (colorName : option string).

(** The first effect with its import settled ([imported = false]: the import
    was rejected and the error logged), the second effect with the user
    loaded, and [changeColor]. *)
Definition step (st : State) (ev : Event) : State :=
  match ev with
  | LanguageEffect language imported =>
      match localeFor language with
      | Some (dayjsName, localeName) =>
          if imported then
            {| primaryColor := primaryColor st; locale := Some localeName;
               dayjsLocale := dayjsName |}
          else st
      | None => st
      end
  | UserLoaded colorScheme | ChangeColor colorScheme =>
      match colorScheme with
      | Some c =>
          if truthy_string c then
            {| primaryColor := c; locale := locale st; dayjsLocale := dayjsLocale st |}
          else st
      | None => st
      end
  end.

Definition after (events : list Event) : State := fold_left step events initial.

(** [locale || 'en'], the setting of [DatesProvider]. *)
Definition datesLocale (st : State) : string := string_or (default "" (locale st)) "en".

(** [offline: !online || settings.offline], where [settings.offline] may be
    absent. *)
Definition offline (online : bool) (settingsOffline : option bool) : option bool :=
  if negb online then Some true else settingsOffline.

(** The languages and colours that the shell can be in: the locale of the
    date pickers and the locale of [dayjs] name the same language, and the
    primary colour is not empty. *)
Definition coherent (st : State) : Prop :=
  ((locale st = None /\ dayjsLocale st = "en")
   \/ (locale st = Some "es-mx" /\ dayjsLocale st = "es-mx")
   \/ (locale st = Some "fr-FR" /\ dayjsLocale st = "fr")
   \/ (locale st = Some "ja-JP" /\ dayjsLocale st = "ja"))
  /\ primaryColor st <> "".

End Surmai.

(** ** Sample inputs *)

Module Samples.
Import Js Trips Api.

Definition tokyo : Trip := {| trip_id := "trip1"; budget := None |}.

Definition panelProps : ExpensesPanel.Props :=
  {| ExpensesPanel.p_trip := tokyo;
     ExpensesPanel.p_tripAttachments := None;
     ExpensesPanel.p_user := None |}.

(** A backend that accepts every call; a created expense gets the id
    [exp9]. *)
Definition savedExpense : Expense :=
  {| id := "exp9"; trip := "trip1"; name := "saved"; cost := None;
     occurredOn := None; category := None; notes := None;
     attachmentReferences := None; convertedCost := None |}.

Definition accepting : Remote :=
  {| uploadAttachments := fun _ _ => Some [];
     createExpense := fun _ => Some savedExpense;
     updateExpense := fun _ _ => Some savedExpense;
     deleteExpense := fun _ => Some tt;
     createTransportationEntry := fun _ => Some tt;
     updateTransportation := fun _ _ => Some tt;
     invalidateQueries := fun _ => Some tt |}.

(** A backend whose expense collection rejects every write. *)
Definition rejecting : Remote :=
  {| uploadAttachments := fun _ _ => Some [];
     createExpense := fun _ => None;
     updateExpense := fun _ _ => None;
     deleteExpense := fun _ => None;
     createTransportationEntry := fun _ => Some tt;
     updateTransportation := fun _ _ => Some tt;
     invalidateQueries := fun _ => Some tt |}.

(** The add form, filled in with the given amount. *)
Definition addForm (a : option number) : ExpensesPanel.State :=
  {| ExpensesPanel.isModalOpen := true;
     ExpensesPanel.selectedExpense := None;
     ExpensesPanel.saving := false;
     ExpensesPanel.sortBy := None;
     ExpensesPanel.sortDirection := ExpensesPanel.asc;
     ExpensesPanel.name := "Taxi";
     ExpensesPanel.amount := a;
     ExpensesPanel.currency := "USD";
     ExpensesPanel.occurredOn := None;
     ExpensesPanel.notes := "";
     ExpensesPanel.category := None;
     ExpensesPanel.files := [];
     ExpensesPanel.existingAttachments := [] |}.

(** The edit form of a stored taxi fare. *)
Definition taxi : Expense :=
  {| id := "exp1"; trip := "trip1"; name := "Taxi";
     cost := Some {| value := num 30; currency := "USD" |};
     occurredOn := None; category := None; notes := None;
     attachmentReferences := None; convertedCost := None |}.

Definition editForm : ExpensesPanel.State :=
  ExpensesPanel.openModalForEdit panelProps taxi (addForm None).

(** A flight of the trip that is already stored as [tr1]. *)
Definition flightProps : FlightForm.Props :=
  {| FlightForm.p_trip := tokyo;
     FlightForm.p_exitingAttachments := None;
     FlightForm.p_expenseMap := Some {[ "exp1" := taxi ]} |}.

Definition flightValues (c : option number) : FlightForm.Values :=
  {| FlightForm.origin := FlightForm.Airport "SFO";
     FlightForm.destination := FlightForm.Airport "NRT";
     FlightForm.departureTime := "2026-03-01T10:00";
     FlightForm.arrivalTime := "2026-03-02T14:00";
     FlightForm.provider := JString "UA";
     FlightForm.reservation := JString "ABC123";
     FlightForm.cost := c;
     FlightForm.currencyCode := "USD";
     FlightForm.flightNumber := "UA837";
     FlightForm.seats := "" |}.

Definition storedFlight (expenseId : option string) : FlightForm.State :=
  {| FlightForm.saving := false;
     FlightForm.files := [];
     FlightForm.transportation :=
       Some {| FlightForm.t_id := Some "tr1";
               FlightForm.t_expenseId := expenseId;
               FlightForm.t_attachmentReferences := None |} |}.

(** The expenses of the specification's scenarios, on a trip budgeted in
    euros: a hotel paid in dollars, a dinner paid in euros, and sushi paid in
    yen, for which no rate is supplied. *)
Definition europe : Trip :=
  {| trip_id := "trip2"; budget := Some {| value := num 1000; currency := "EUR" |} |}.

Definition europeProps : ExpensesPanel.Props :=
  {| ExpensesPanel.p_trip := europe;
     ExpensesPanel.p_tripAttachments := None;
     ExpensesPanel.p_user := None |}.

Definition hotel : Expense :=
  {| id := "a"; trip := "trip2"; name := "Hotel";
     cost := Some {| value := num 100; currency := "USD" |};
     occurredOn := None; category := Some lodging; notes := None;
     attachmentReferences := None; convertedCost := None |}.

Definition dinner : Expense :=
  {| id := "b"; trip := "trip2"; name := "Dinner";
     cost := Some {| value := num 50; currency := "EUR" |};
     occurredOn := None; category := Some food; notes := None;
     attachmentReferences := None; convertedCost := None |}.

Definition sushi : Expense :=
  {| id := "c"; trip := "trip2"; name := "Sushi";
     cost := Some {| value := num 30; currency := "JPY" |};
     occurredOn := None; category := None; notes := None;
     attachmentReferences := None; convertedCost := None |}.

Definition usdToEur : ConversionRate :=
  {| rate_from := "USD"; rate_to := "EUR"; rate := Q2Qc (9 # 10) |}.

(** The same expenses with the converted costs of the scenarios, and a
    souvenir that ties with the dinner. *)
Definition hotel90 : Expense :=
  Helper.withConvertedCost hotel (Some {| value := num 90; currency := "EUR" |}).
Definition dinner50 : Expense :=
  Helper.withConvertedCost dinner (Some {| value := num 50; currency := "EUR" |}).
Definition souvenir50 : Expense :=
  {| id := "d"; trip := "trip2"; name := "Magnet";
     cost := Some {| value := num 50; currency := "EUR" |};
     occurredOn := None; category := Some souvenirs; notes := None;
     attachmentReferences := None;
     convertedCost := Some {| value := num 50; currency := "EUR" |} |}.

(** The panel with nothing selected and no sort chosen. *)
Definition idle : ExpensesPanel.State :=
  {| ExpensesPanel.isModalOpen := false;
     ExpensesPanel.selectedExpense := None;
     ExpensesPanel.saving := false;
     ExpensesPanel.sortBy := None;
     ExpensesPanel.sortDirection := ExpensesPanel.asc;
     ExpensesPanel.name := "";
     ExpensesPanel.amount := None;
     ExpensesPanel.currency := "EUR";
     ExpensesPanel.occurredOn := None;
     ExpensesPanel.notes := "";
     ExpensesPanel.category := None;
     ExpensesPanel.files := [];
     ExpensesPanel.existingAttachments := [] |}.

(** Stand-ins for the platform's date and collation functions. *)
Definition epoch (d : string) : number := 0%Qc.
Definition collate (a b : string) : number := 0%Qc.
Definition asWritten (d : string) : string := d.

(** A backend that stores expenses and rejects every transportation
    call. *)
Definition flightsRejected : Remote :=
  {| uploadAttachments := fun _ _ => Some [];
     createExpense := fun _ => Some savedExpense;
     updateExpense := fun _ _ => Some savedExpense;
     deleteExpense := fun _ => Some tt;
     createTransportationEntry := fun _ => None;
     updateTransportation := fun _ _ => None;
     invalidateQueries := fun _ => Some tt |}.

Definition newFlight : FlightForm.State :=
  {| FlightForm.saving := false;
     FlightForm.files := [];
     FlightForm.transportation := None |}.

(** Three small expenses in euros: a snack of 0.10, a locker of 0.20 and a
    laundry of 0.30, the last two under lodging. *)
Definition small (i n : string) (c : Category) (cents : Z) : Expense :=
  {| id := i; trip := "trip2"; name := n;
     cost := Some {| value := Q2Qc (cents # 100); currency := "EUR" |};
     occurredOn := None; category := Some c; notes := None;
     attachmentReferences := None;
     convertedCost := Some {| value := Q2Qc (cents # 100); currency := "EUR" |} |}.

Definition snack : Expense := small "s1" "Snack" food 10.
Definition locker : Expense := small "s2" "Locker" lodging 20.
Definition laundry : Expense := small "s3" "Laundry" lodging 30.

(** A backend filter that understands the expressions [trip="<id>"]. *)
Definition tripIs (expression : string) (e : Expense) : bool :=
  bool_decide (expression = "trip=" +:+ dquote +:+ trip e +:+ dquote).

End Samples.

(** * Properties *)

(** ** JavaScript values *)

Module JsFacts.
Import Js.

Lemma truthy_number_spec n : truthy_number n = true <-> n <> 0%Qc.
Proof.
  unfold truthy_number. rewrite negb_true_iff, bool_decide_eq_false. reflexivity.
Qed.

Lemma truthy_string_spec s : truthy_string s = true <-> s <> "".
Proof.
  unfold truthy_string. rewrite negb_true_iff, bool_decide_eq_false. reflexivity.
Qed.

Lemma number_or_zero n : number_or n 0%Qc = n.
Proof.
  unfold number_or, truthy_number. case_bool_decide; simpl; congruence.
Qed.

(** A field read from an object literal is one of the fields written. *)
Lemma object_lookup_Some fields k v :
  object fields !! k = Some v -> (k, v) ∈ fields.
Proof.
  unfold object. intros H. apply elem_of_list_to_map_2 in H.
  rewrite elem_of_reverse in H. exact H.
Qed.

End JsFacts.

(** ** Sorting *)

Module SortFacts.
Import Js.

Lemma compare_sub (a b : number) : (a - b ?= 0)%Qc = (a ?= b)%Qc.
Proof.
  destruct (a ?= b)%Qc eqn:E.
  - apply Qceq_alt in E. subst. apply Qceq_alt. ring.
  - apply Qclt_alt in E. apply Qclt_alt.
    apply Qclt_minus_iff in E. apply Qclt_minus_iff.
    replace (0 + - (a - b))%Qc with (b + - a)%Qc by ring. exact E.
  - apply Qcgt_alt in E. apply Qcgt_alt.
    apply Qclt_minus_iff in E.
    replace (a - b)%Qc with (a + - b)%Qc by ring. exact E.
Qed.

Lemma compare_opp_sub (a b : number) : (- (a - b) ?= 0)%Qc = (- a ?= - b)%Qc.
Proof.
  replace (- (a - b))%Qc with (- a - - b)%Qc by ring. apply compare_sub.
Qed.

Lemma opp_lt (a b : number) : (a < b)%Qc -> (- b < - a)%Qc.
Proof.
  intros H. apply Qclt_minus_iff in H. apply Qclt_minus_iff.
  replace (- a + - - b)%Qc with (b + - a)%Qc by ring. exact H.
Qed.

Lemma StronglySorted_weaken {A} (R R' : relation A) l :
  (forall a b, R a b -> R' a b) -> StronglySorted R l -> StronglySorted R' l.
Proof.
  intros HR. induction 1 as [|a l _ IH Hall]; constructor; [exact IH|].
  eapply Forall_impl; [exact Hall|]. intros b. apply HR.
Qed.

Lemma StronglySorted_rev {A} (R : relation A) l :
  StronglySorted R l -> StronglySorted (flip R) (rev l).
Proof.
  induction 1 as [|a l _ IH Hall]; [constructor|].
  simpl. apply StronglySorted_app. split; [|split; [exact IH|repeat constructor]].
  intros x1 x2 H1 H2. apply list_elem_of_singleton in H2 as ->.
  unfold flip. rewrite Forall_forall in Hall. apply Hall.
  apply list_elem_of_In, in_rev, list_elem_of_In in H1. exact H1.
Qed.

(** A comparator that orders by a numeric key, smallest first. *)
Section ByKey.
Context {A : Type} (compareFn : A -> A -> number) (key : A -> number).
Hypothesis compare_key :
  forall x y, (compareFn x y ?= 0)%Qc = (key x ?= key y)%Qc.

Lemma insert_sorted_perm x l : JsArray.insert_sorted compareFn x l ≡ₚ x :: l.
Proof.
  induction l as [|y l IH]; [reflexivity|]. simpl.
  destruct (compareFn x y ?= 0)%Qc; try reflexivity.
  rewrite IH. apply Permutation_swap.
Qed.

Lemma sort_perm l : JsArray.sort compareFn l ≡ₚ l.
Proof.
  induction l as [|x l IH]; [reflexivity|]. simpl.
  rewrite insert_sorted_perm. by rewrite IH.
Qed.

Lemma insert_sorted_sorted x l :
  StronglySorted (fun a b => key a <= key b)%Qc l ->
  StronglySorted (fun a b => key a <= key b)%Qc (JsArray.insert_sorted compareFn x l).
Proof.
  induction 1 as [|y l Hl IH Hall]; [repeat constructor|].
  simpl. rewrite compare_key.
  assert (Hle : (key x <= key y)%Qc ->
                StronglySorted (fun a b => key a <= key b)%Qc (x :: y :: l)).
  { intros Hxy. constructor; [by constructor|].
    constructor; [exact Hxy|].
    eapply Forall_impl; [exact Hall|]. intros b Hb. cbn in Hb.
    eapply Qcle_trans; eassumption. }
  destruct (key x ?= key y)%Qc eqn:E.
  - apply Hle. apply Qceq_alt in E. rewrite E. apply Qcle_refl.
  - apply Hle. apply Qclt_le_weak. by apply Qclt_alt.
  - constructor; [exact IH|].
    rewrite insert_sorted_perm. constructor; [|exact Hall].
    apply Qclt_le_weak. by apply Qcgt_alt in E.
Qed.

Lemma sort_sorted l :
  StronglySorted (fun a b => key a <= key b)%Qc (JsArray.sort compareFn l).
Proof.
  induction l as [|x l IH]; [constructor|]. simpl. by apply insert_sorted_sorted.
Qed.



Lemma sorted_strict l :
  NoDup (map key l) ->
  StronglySorted (fun a b => key a <= key b)%Qc l ->
  StronglySorted (fun a b => key a < key b)%Qc l.
Proof.
  intros Hnd. induction 1 as [|a l _ IH Hall]; [constructor|].
  simpl in Hnd. apply NoDup_cons in Hnd as [Hnotin Hnd].
  constructor; [by apply IH|].
  rewrite Forall_forall in Hall |- *. intros b Hb.
  destruct (Qcle_lt_or_eq _ _ (Hall b Hb)) as [Hlt|Heq]; [exact Hlt|].
  exfalso. apply Hnotin. rewrite Heq. apply list_elem_of_fmap. by exists b.
Qed.

Lemma sort_sorted_strict l :
  NoDup (map key l) ->
  StronglySorted (fun a b => key a < key b)%Qc (JsArray.sort compareFn l).
Proof.
  intros Hnd. apply sorted_strict; [|apply sort_sorted].
  by rewrite sort_perm.
Qed.

End ByKey.

(** Without ties, the descending sort is the ascending sort reversed. *)
Lemma sort_descending_reverse {A} (ascending descending : A -> A -> number)
    (key : A -> number) l :
  (forall x y, (ascending x y ?= 0)%Qc = (key x ?= key y)%Qc) ->
  (forall x y, (descending x y ?= 0)%Qc = (- key x ?= - key y)%Qc) ->
  NoDup (map key l) ->
  JsArray.sort descending l = rev (JsArray.sort ascending l).
Proof.
  intros Hasc Hdesc Hnd.
  assert (Hnd' : NoDup (map (fun x => (- key x)%Qc) l)).
  { assert (Hinj : Inj eq eq Qcopp).
    { intros p q Hpq. rewrite <- (Qcopp_involutive p), <- (Qcopp_involutive q).
      by rewrite Hpq. }
    replace (map (fun x => (- key x)%Qc) l) with (Qcopp <$> (key <$> l))
      by (symmetry; apply (list_fmap_compose key Qcopp l)).
    apply (NoDup_fmap_2 Qcopp). exact Hnd. }
  apply (StronglySorted_unique_strong (fun a b => (- key a < - key b)%Qc)).
  - intros x1 x2 _ _ H1 H2. exfalso.
    apply (Qclt_not_le _ _ H1). by apply Qclt_le_weak.
  - by apply (sort_sorted_strict descending (fun x => (- key x)%Qc)).
  - apply (StronglySorted_weaken (flip (fun a b => (key a < key b)%Qc))).
    { intros a b Hab. unfold flip in Hab. by apply opp_lt. }
    apply StronglySorted_rev. by apply (sort_sorted_strict ascending key).
  - rewrite (sort_perm descending), <- Permutation_rev.
    by rewrite (sort_perm ascending).
Qed.

(** A comparator that decides a total preorder. *)
Section ByOrder.
Context {A : Type} (compareFn : A -> A -> number) (le : A -> A -> Prop).
Hypothesis le_total : forall x y, le x y \/ le y x.
Hypothesis le_trans : forall x y z, le x y -> le y z -> le x z.
Hypothesis compare_le : forall x y, (compareFn x y <= 0)%Qc <-> le x y.

Lemma insert_sorted_ordered x l :
  StronglySorted le l -> StronglySorted le (JsArray.insert_sorted compareFn x l).
Proof.
  induction 1 as [|y l Hl IH Hall]; [repeat constructor|].
  simpl.
  assert (Hle : le x y -> StronglySorted le (x :: y :: l)).
  { intros Hxy. constructor; [by constructor|].
    constructor; [exact Hxy|].
    eapply Forall_impl; [exact Hall|]. intros b Hb. by eapply le_trans. }
  destruct (compareFn x y ?= 0)%Qc eqn:E.
  - apply Hle, compare_le. apply Qceq_alt in E. rewrite E. apply Qcle_refl.
  - apply Hle, compare_le. apply Qclt_le_weak. by apply Qclt_alt.
  - constructor; [exact IH|].
    rewrite (insert_sorted_perm compareFn). constructor; [|exact Hall].
    destruct (le_total x y) as [Hxy|Hyx]; [|exact Hyx].
    apply compare_le in Hxy. apply Qcgt_alt in E.
    exfalso. exact (Qclt_not_le _ _ E Hxy).
Qed.

Lemma sort_ordered l : StronglySorted le (JsArray.sort compareFn l).
Proof.
  induction l as [|x l IH]; [constructor|]. simpl. by apply insert_sorted_ordered.
Qed.

End ByOrder.

End SortFacts.

(** ** Totals and category groups *)

Module AggregationFacts.
Import Js Trips ExpensesPanel JsFacts SortFacts.

Lemma sumOf_app l l' : sumOf (l ++ l') = (sumOf l + sumOf l')%Qc.
Proof.
  induction l as [|n l IH]; simpl; [ring|]. rewrite IH. ring.
Qed.

Lemma sumOf_perm l l' : l ≡ₚ l' -> sumOf l = sumOf l'.
Proof.
  induction 1 as [|n l l' _ IH|n m l|l l' l'' _ IH1 _ IH2]; simpl.
  - reflexivity.
  - by rewrite IH.
  - ring.
  - congruence.
Qed.

Lemma amountOf_value e c : convertedCost e = Some c -> amountOf e = value c.
Proof. intros H. unfold amountOf. rewrite H. apply number_or_zero. Qed.

Lemma amountOf_absent e : convertedCost e = None -> amountOf e = 0%Qc.
Proof. intros H. unfold amountOf. by rewrite H. Qed.

Lemma fold_total l s :
  fold_left (fun sum exp => (sum + amountOf exp)%Qc) l s = (s + sumOf (map amountOf l))%Qc.
Proof.
  revert s. induction l as [|e l IH]; intros s; simpl; [ring|]. rewrite IH. ring.
Qed.

Lemma totalExpenses_sum l : totalExpenses l = sumOf (map amountOf l).
Proof. unfold totalExpenses. rewrite fold_total. ring. Qed.

(** Writing [acc[cat] = (acc[cat] || 0) + v] adds [v] to the sum of the
    values. *)
Lemma sum_after_set (acc : list (string * number)) cat v :
  sumOf (map snd (JsArray.set acc cat (totalSoFar acc cat + v)%Qc))
  = (sumOf (map snd acc) + v)%Qc.
Proof.
  unfold totalSoFar.
  induction acc as [|[k n] acc IH]; simpl; [ring|].
  destruct (decide (cat = k)) as [->|Hne]; simpl.
  - rewrite number_or_zero. ring.
  - rewrite IH. ring.
Qed.

Lemma categoryTotals_snoc l e :
  categoryTotals (l ++ [e]) =
  JsArray.set (categoryTotals l) (categoryTag e)
    (totalSoFar (categoryTotals l) (categoryTag e) + amountOf e)%Qc.
Proof. unfold categoryTotals. by rewrite fold_left_app. Qed.

Lemma categoryTotals_sum l : sumOf (map snd (categoryTotals l)) = sumOf (map amountOf l).
Proof.
  induction l as [|e l IH] using rev_ind; [reflexivity|].
  rewrite categoryTotals_snoc, sum_after_set, IH, map_app, sumOf_app. simpl. ring.
Qed.

(** [firstSeen] *)
Lemma elem_of_firstSeen t ts : t ∈ firstSeen ts <-> t ∈ ts.
Proof.
  induction ts as [|t' ts IH]; simpl; [reflexivity|].
  rewrite !elem_of_cons, list_elem_of_filter, IH.
  destruct (decide (t = t')); tauto.
Qed.

Lemma NoDup_firstSeen ts : NoDup (firstSeen ts).
Proof.
  induction ts as [|t ts IH]; simpl; constructor.
  - rewrite list_elem_of_filter. tauto.
  - by apply NoDup_filter.
Qed.

Lemma firstSeen_snoc ts t :
  firstSeen (ts ++ [t]) = firstSeen ts ++ (if decide (t ∈ ts) then [] else [t]).
Proof.
  induction ts as [|t' ts IH]; [reflexivity|]. cbn [firstSeen app].
  rewrite IH, filter_app. f_equal. f_equal.
  destruct (decide (t ∈ ts)) as [Hin|Hnin].
  - rewrite decide_True by (by right). reflexivity.
  - destruct (decide (t = t')) as [->|Hne].
    + rewrite decide_True by (by left). rewrite filter_cons, decide_False by tauto.
      reflexivity.
    + rewrite decide_False by (rewrite elem_of_cons; tauto).
      rewrite filter_cons, decide_True by done. reflexivity.
Qed.

(** [groupTotal] *)
Lemma groupTotal_snoc tag l e :
  groupTotal tag (l ++ [e]) =
  (groupTotal tag l + (if decide (categoryTag e = tag) then amountOf e else 0))%Qc.
Proof.
  unfold groupTotal. rewrite filter_app, map_app, sumOf_app. f_equal.
  rewrite filter_cons. destruct (decide (categoryTag e = tag)); simpl; [ring|reflexivity].
Qed.

Lemma groupTotal_absent tag l : tag ∉ map categoryTag l -> groupTotal tag l = 0%Qc.
Proof.
  unfold groupTotal. induction l as [|e l IH]; intros Hnin; [reflexivity|].
  cbn [map] in Hnin. rewrite not_elem_of_cons in Hnin. destruct Hnin as [Hne Hnin].
  rewrite filter_cons, decide_False by congruence. by apply IH.
Qed.

(** Reading and writing an object that lists [f] over keys [ks]. *)
Lemma get_tabulate {V} (f : string -> V) ks k :
  JsArray.get (map (fun t => (t, f t)) ks) k = if decide (k ∈ ks) then Some (f k) else None.
Proof.
  induction ks as [|t ks IH]; [reflexivity|]. cbn [map JsArray.get].
  destruct (decide (k = t)) as [->|Hne].
  - rewrite decide_True by (by left). reflexivity.
  - rewrite IH. destruct (decide (k ∈ ks)).
    + rewrite decide_True by (by right). reflexivity.
    + rewrite decide_False by (rewrite elem_of_cons; tauto). reflexivity.
Qed.

Lemma set_tabulate {V} (f : string -> V) ks k w :
  NoDup ks ->
  JsArray.set (map (fun t => (t, f t)) ks) k w =
  map (fun t => (t, if decide (t = k) then w else f t)) ks
    ++ (if decide (k ∈ ks) then [] else [(k, w)]).
Proof.
  induction 1 as [|t ks Hnin _ IH]; [reflexivity|]. cbn [map JsArray.set].
  destruct (decide (k = t)) as [->|Hne].
  - rewrite !decide_True by (done || by left). rewrite app_nil_r. f_equal.
    apply map_ext_in. intros t' Ht'. rewrite decide_False; [reflexivity|].
    intros ->. apply Hnin. by apply list_elem_of_In.
  - rewrite (decide_False (P := t = k)) by done. rewrite IH. cbn [app]. f_equal. f_equal.
    destruct (decide (k ∈ ks)).
    + rewrite decide_True by (by right). reflexivity.
    + rewrite decide_False by (rewrite elem_of_cons; tauto). reflexivity.
Qed.

(** The object that the reduction builds is the list of groups. *)
Lemma categoryTotals_groups l : categoryTotals l = categoryGroups l.
Proof.
  induction l as [|e l IH] using rev_ind; [reflexivity|].
  rewrite categoryTotals_snoc, IH. unfold categoryGroups, totalSoFar.
  rewrite (map_app categoryTag l [e]). cbn [map].
  rewrite firstSeen_snoc, map_app, get_tabulate.
  rewrite set_tabulate by apply NoDup_firstSeen.
  assert (Hsofar :
    (match (if decide (categoryTag e ∈ firstSeen (map categoryTag l))
            then Some (groupTotal (categoryTag e) l) else None) with
     | Some n => number_or n 0%Qc
     | None => 0%Qc
     end + amountOf e)%Qc = groupTotal (categoryTag e) (l ++ [e])).
  { rewrite groupTotal_snoc.
    destruct (decide (categoryTag e = categoryTag e)) as [_|?]; [|done].
    destruct (decide (categoryTag e ∈ firstSeen (map categoryTag l))) as [Hin|Hnin].
    - by rewrite number_or_zero.
    - rewrite groupTotal_absent; [reflexivity|]. by rewrite <- elem_of_firstSeen. }
  rewrite Hsofar. f_equal.
  - apply map_ext. intros t. f_equal.
    destruct (decide (t = categoryTag e)) as [->|Hne]; [reflexivity|].
    rewrite groupTotal_snoc.
    destruct (decide (categoryTag e = t)) as [?|_]; [congruence|ring].
  - destruct (decide (categoryTag e ∈ firstSeen (map categoryTag l))) as [Hin|Hnin].
    + rewrite decide_True by (by apply elem_of_firstSeen). reflexivity.
    + rewrite decide_False by (by rewrite <- elem_of_firstSeen). reflexivity.
Qed.

(** What has been added up for a tag is the sum of its group. *)
Lemma totalSoFar_group l tag : totalSoFar (categoryTotals l) tag = groupTotal tag l.
Proof.
  rewrite categoryTotals_groups. unfold totalSoFar, categoryGroups.
  rewrite get_tabulate.
  destruct (decide (tag ∈ firstSeen (map categoryTag l))) as [Hin|Hnin].
  - apply number_or_zero.
  - symmetry. apply groupTotal_absent. by rewrite <- elem_of_firstSeen.
Qed.

Lemma groupTotal_without e before after tag :
  amountOf e = 0%Qc ->
  groupTotal tag (before ++ e :: after) = groupTotal tag (before ++ after).
Proof.
  intros Hzero. unfold groupTotal.
  rewrite !filter_app, filter_cons, !map_app, !sumOf_app.
  destruct (decide (categoryTag e = tag)); [|reflexivity].
  simpl. rewrite Hzero. ring.
Qed.





Lemma filter_tag_absent t (l : list Expense) :
  t ∉ map categoryTag l -> filter (fun e => categoryTag e = t) l = [].
Proof.
  induction l as [|x l IH]; intros Hnin; [reflexivity|].
  cbn [map] in Hnin. rewrite not_elem_of_cons in Hnin. destruct Hnin as [Hne Hnin].
  rewrite filter_cons, decide_False by congruence. by apply IH.
Qed.

(** The reduction by category in any arithmetic: the entry of a tag is what
    the same steps give on the expenses of that tag alone. *)
Section Grouping.
Context {N : Type} (amount : Expense -> N) (zero : N) (add : N -> N -> N) (orZero : N -> N).
Hypothesis orZero_zero : orZero zero = zero.

Lemma grouped_fold (l : list Expense) :
  fold_left
    (fun acc e =>
       JsArray.set acc (categoryTag e)
         (add (match JsArray.get acc (categoryTag e) with
               | Some n => orZero n
               | None => zero
               end) (amount e))) l []
  = map (fun t =>
           (t, fold_left (fun s e => add (orZero s) (amount e))
                 (filter (fun e => categoryTag e = t) l) zero))
        (firstSeen (map categoryTag l)).
Proof.
  induction l as [|e l IH] using rev_ind; [reflexivity|].
  rewrite fold_left_app. cbn [fold_left]. rewrite IH.
  rewrite (map_app categoryTag l [e]). cbn [map].
  rewrite firstSeen_snoc, map_app, get_tabulate.
  rewrite set_tabulate by apply NoDup_firstSeen.
  assert (Hstep : forall t,
    fold_left (fun s e => add (orZero s) (amount e))
      (filter (fun e => categoryTag e = t) (l ++ [e])) zero
    = if decide (categoryTag e = t)
      then add (orZero (fold_left (fun s e => add (orZero s) (amount e))
                          (filter (fun e => categoryTag e = t) l) zero)) (amount e)
      else fold_left (fun s e => add (orZero s) (amount e))
             (filter (fun e => categoryTag e = t) l) zero).
  { intros t. rewrite filter_app, fold_left_app, filter_cons.
    destruct (decide (categoryTag e = t)); reflexivity. }
  pose proof (fun t => filter_tag_absent t l) as Habsent.
  f_equal.
  - apply map_ext. intros t. f_equal. rewrite Hstep.
    destruct (decide (t = categoryTag e)) as [->|Hne].
    + rewrite (decide_True (P := categoryTag e = categoryTag e)) by done.
      destruct (decide (categoryTag e ∈ firstSeen (map categoryTag l))) as [Hin|Hnin];
        [reflexivity|].
      rewrite Habsent by (by rewrite <- elem_of_firstSeen). cbn. by rewrite orZero_zero.
    + rewrite decide_False by congruence. reflexivity.
  - destruct (decide (categoryTag e ∈ firstSeen (map categoryTag l))) as [Hin|Hnin].
    + rewrite decide_True by (by apply elem_of_firstSeen). reflexivity.
    + rewrite decide_False by (by rewrite <- elem_of_firstSeen). cbn [map].
      rewrite Hstep, (decide_True (P := categoryTag e = categoryTag e)) by done.
      rewrite Habsent by (by rewrite <- elem_of_firstSeen). cbn. by rewrite orZero_zero.
Qed.

End Grouping.

(** The functions of the panel against the words of the specification. *)
Lemma categoryTag_orOther e : categoryTag e = categoryOrOther e.
Proof. unfold categoryTag, categoryOrOther. by destruct (Trips.category e). Qed.

Lemma amountOf_orZero e : amountOf e = amountOrZero e.
Proof.
  unfold amountOf, amountOrZero. destruct (convertedCost e); [|reflexivity].
  apply number_or_zero.
Qed.

Lemma categoryOf_orEmpty e : categoryOf e = categoryOrEmpty e.
Proof. unfold categoryOf, categoryOrEmpty. by destruct (Trips.category e). Qed.

Lemma timeOf_orZero getTime e : timeOf getTime e = timeOrZero getTime e.
Proof.
  unfold timeOf, timeOrZero, truthy_string. destruct (Trips.occurredOn e) as [d|]; [|reflexivity].
  case_bool_decide; destruct (decide (d = "")); done.
Qed.

Lemma filter_tag_expensesOf k l : filter (fun e => categoryTag e = k) l = expensesOf k l.
Proof.
  unfold expensesOf. apply list_filter_iff. intros e. by rewrite categoryTag_orOther.
Qed.

Lemma firstSeen_tags l : firstSeen (map categoryTag l) = firstSeen (map categoryOrOther l).
Proof. reflexivity. Qed.

Lemma runningSum_from (vs : list number) a : fold_left Qcplus vs a = (a + sumOf vs)%Qc.
Proof.
  revert a. induction vs as [|v vs IH]; intros a.
  - unfold sumOf. cbn [fold_left foldr]. ring.
  - cbn [fold_left]. rewrite IH. unfold sumOf. cbn [foldr]. ring.
Qed.

Lemma runningSum_sumOf vs : runningSum vs = sumOf vs.
Proof. unfold runningSum. rewrite runningSum_from. ring. Qed.

Lemma sumOf_amounts l : sumOf (map amountOf l) = sumOf (convertedValues l).
Proof.
  unfold convertedValues. induction l as [|e l IH]; [reflexivity|].
  cbn [map omap list_omap]. unfold sumOf in *. cbn [foldr]. rewrite IH, amountOf_orZero.
  unfold amountOrZero. destruct (convertedCost e); cbn [fmap option_fmap option_map from_option foldr];
    [reflexivity|ring].
Qed.

Lemma categoryTotals_words l :
  categoryTotals l
  = map (fun k => (k, runningSum (convertedValues (expensesOf k l))))
        (firstSeen (map categoryOrOther l)).
Proof.
  rewrite categoryTotals_groups. unfold categoryGroups. rewrite firstSeen_tags.
  apply map_ext. intros k. f_equal. unfold groupTotal.
  by rewrite filter_tag_expensesOf, sumOf_amounts, runningSum_sumOf.
Qed.

(** The exact sums of the groups add up to the exact sum of all values. *)
Lemma exact_partition l :
  sumOf (map (fun k => sumOf (convertedValues (expensesOf k l)))
           (firstSeen (map categoryOrOther l)))
  = sumOf (convertedValues l).
Proof.
  rewrite <- sumOf_amounts, <- categoryTotals_sum, categoryTotals_words, map_map.
  f_equal. apply map_ext. intros k. cbn. by rewrite runningSum_sumOf.
Qed.

(** The same reductions in binary64. *)
Lemma Forall_converted_filter (P : Expense -> Prop) `{forall e, Decision (P e)} l :
  Forall (fun e => is_Some (convertedCost e)) l ->
  Forall (fun e => is_Some (convertedCost e)) (filter P l).
Proof.
  rewrite !Forall_forall. intros Hall e [_ He]%list_elem_of_filter. by apply Hall.
Qed.

Lemma binary64_amounts l :
  Forall (fun e => is_Some (convertedCost e)) l ->
  map Binary64.amountOf l = Binary64.amounts l.
Proof.
  unfold Binary64.amounts, convertedValues.
  induction 1 as [|e l [c Hc] _ IH]; [reflexivity|].
  cbn [map omap list_omap]. rewrite Hc. cbn [fmap option_fmap option_map map].
  rewrite <- IH. f_equal. unfold Binary64.amountOf. by rewrite Hc.
Qed.

Lemma fold_left_amounts {S N} (f : S -> N -> S) (g : Expense -> N) l s :
  fold_left (fun acc e => f acc (g e)) l s = fold_left f (map g l) s.
Proof. revert s. induction l as [|e l IH]; intros s; [reflexivity|]. cbn. apply IH. Qed.

Lemma binary64_orZero_zero : Binary64.number_or PrimFloat.zero PrimFloat.zero = PrimFloat.zero.
Proof. reflexivity. Qed.

Lemma binary64_categoryTotals l :
  Forall (fun e => is_Some (convertedCost e)) l ->
  Binary64.categoryTotals l
  = map (fun k => (k, Binary64.runningSum (Binary64.amounts (expensesOf k l))))
        (firstSeen (map categoryOrOther l)).
Proof.
  intros Hall. unfold Binary64.categoryTotals, Binary64.totalSoFar.
  rewrite (grouped_fold Binary64.amountOf PrimFloat.zero PrimFloat.add
             (fun n => Binary64.number_or n PrimFloat.zero) binary64_orZero_zero).
  rewrite firstSeen_tags. apply map_ext. intros k. f_equal.
  rewrite filter_tag_expensesOf.
  rewrite (fold_left_amounts
             (fun s v => PrimFloat.add (Binary64.number_or s PrimFloat.zero) v)
             Binary64.amountOf).
  rewrite binary64_amounts; [reflexivity|]. by apply Forall_converted_filter.
Qed.

Lemma binary64_totalExpenses l :
  Forall (fun e => is_Some (convertedCost e)) l ->
  Binary64.totalExpenses l = fold_left PrimFloat.add (Binary64.amounts l) PrimFloat.zero.
Proof.
  intros Hall. unfold Binary64.totalExpenses.
  rewrite (fold_left_amounts PrimFloat.add Binary64.amountOf).
  by rewrite binary64_amounts.
Qed.

End AggregationFacts.

(** ** The panel's view *)

Module ViewFacts.
Import Js Trips ExpensesPanel JsFacts SortFacts AggregationFacts.

(** C4, as amended: when every expense of the list has a converted cost, the
    grouping partitions the list.  In the arithmetic of the program there is
    one total per category, an absent category counting as [other], in the
    order in which the categories are first met; the total of a category is
    the running sum, in list order, of the values of its own expenses, and
    the grand total is the running sum of all values.  The exact sums of the
    groups add up to the exact sum of all values. *)
Theorem category_totals_partition (sorted : list Expense) :
  Forall (fun e => is_Some (convertedCost e)) sorted ->
  Binary64.categoryTotals sorted
    = map (fun k => (k, Binary64.runningSum (Binary64.amounts (expensesOf k sorted))))
        (firstSeen (map categoryOrOther sorted))
  /\ NoDup (map fst (Binary64.categoryTotals sorted))
  /\ (forall e, e ∈ sorted ->
        categoryOrOther e ∈ map fst (Binary64.categoryTotals sorted)
        /\ e ∈ expensesOf (categoryOrOther e) sorted)
  /\ Binary64.totalExpenses sorted
     = fold_left PrimFloat.add (Binary64.amounts sorted) PrimFloat.zero
  /\ sumOf (map (fun k => sumOf (convertedValues (expensesOf k sorted)))
              (map fst (Binary64.categoryTotals sorted)))
     = sumOf (convertedValues sorted).
Proof.
  intros Hall.
  pose proof (binary64_categoryTotals sorted Hall) as Htotals.
  assert (Hkeys :
    map fst (Binary64.categoryTotals sorted) = firstSeen (map categoryOrOther sorted)).
  { rewrite Htotals, map_map. cbn. apply map_id. }
  split; [exact Htotals|]. rewrite Hkeys.
  split; [apply NoDup_firstSeen|]. split; [|split].
  - intros e He. split.
    + apply elem_of_firstSeen, list_elem_of_fmap. by exists e.
    + unfold expensesOf. by apply list_elem_of_filter.
  - by apply binary64_totalExpenses.
  - apply exact_partition.
Qed.


Section Sorting.
Variable getTime : string -> number.
Variable localeCompare : string -> string -> number.

Local Abbreviation sortedBy := (sortedExpenses getTime localeCompare).

Lemma opp_nonpositive (c : number) : (- c <= 0)%Qc <-> (0 <= c)%Qc.
Proof.
  split; intros H; apply Qcopp_le_compat in H.
  - by rewrite Qcopp_involutive in H.
  - exact H.
Qed.

(** C6: when no two expenses have the same amount, an absent converted cost
    counting as the amount 0, sorting by amount descending gives the reverse
    of sorting by amount ascending: the ascending list is the rearrangement
    of the expenses in strictly increasing amount and the descending one is
    in strictly decreasing amount.  Sorting by date orders by the time, an
    absent date counting as 0; sorting by category orders the category keys,
    an absent category counting as the empty string, by the order that the
    collation decides. *)
Theorem sort_by_amount_descending_is_reverse (expenses : list Expense) :
  NoDup (map amountOrZero expenses) ->
  sortedBy (Some by_amount) desc expenses = rev (sortedBy (Some by_amount) asc expenses)
  /\ sortedBy (Some by_amount) asc expenses ≡ₚ expenses
  /\ StronglySorted (fun a b => amountOrZero a < amountOrZero b)%Qc
       (sortedBy (Some by_amount) asc expenses)
  /\ StronglySorted (fun a b => amountOrZero b < amountOrZero a)%Qc
       (sortedBy (Some by_amount) desc expenses)
  /\ StronglySorted (fun a b => timeOrZero getTime a <= timeOrZero getTime b)%Qc
       (sortedBy (Some by_date) asc expenses)
  /\ StronglySorted (fun a b => timeOrZero getTime b <= timeOrZero getTime a)%Qc
       (sortedBy (Some by_date) desc expenses)
  /\ (forall le : string -> string -> Prop,
        (forall s t, le s t \/ le t s) ->
        (forall s t u, le s t -> le t u -> le s u) ->
        (forall s t, (localeCompare s t <= 0)%Qc <-> le s t) ->
        (forall s t, (0 <= localeCompare s t)%Qc <-> le t s) ->
        StronglySorted (fun a b => le (categoryOrEmpty a) (categoryOrEmpty b))
          (sortedBy (Some by_category) asc expenses)
        /\ StronglySorted (fun a b => le (categoryOrEmpty b) (categoryOrEmpty a))
             (sortedBy (Some by_category) desc expenses)).
Proof.
  intros Hnd. unfold sortedExpenses.
  assert (Hasc : forall x y,
    (compareExpenses getTime localeCompare (Some by_amount) asc x y ?= 0)%Qc
    = (amountOrZero x ?= amountOrZero y)%Qc).
  { intros x y. cbn. rewrite !amountOf_orZero. apply compare_sub. }
  assert (Hdesc : forall x y,
    (compareExpenses getTime localeCompare (Some by_amount) desc x y ?= 0)%Qc
    = (- amountOrZero x ?= - amountOrZero y)%Qc).
  { intros x y. cbn. rewrite !amountOf_orZero. apply compare_opp_sub. }
  assert (Hnd' : NoDup (map (fun x => (- amountOrZero x)%Qc) expenses)).
  { assert (Hinj : Inj eq eq Qcopp).
    { intros p q Hpq. rewrite <- (Qcopp_involutive p), <- (Qcopp_involutive q).
      by rewrite Hpq. }
    replace (map (fun x => (- amountOrZero x)%Qc) expenses)
      with (Qcopp <$> (amountOrZero <$> expenses))
      by (symmetry; apply (list_fmap_compose amountOrZero Qcopp expenses)).
    apply (NoDup_fmap_2 Qcopp). exact Hnd. }
  split; [by apply (sort_descending_reverse _ _ amountOrZero)|].
  split; [apply sort_perm|].
  split; [by apply (sort_sorted_strict _ amountOrZero)|].
  split.
  { apply (StronglySorted_weaken (fun a b => (- amountOrZero a < - amountOrZero b)%Qc)).
    { intros a b Hab. apply opp_lt in Hab. by rewrite !Qcopp_involutive in Hab. }
    by apply (sort_sorted_strict _ (fun x => (- amountOrZero x)%Qc)). }
  split.
  { apply (sort_sorted _ (timeOrZero getTime)). intros x y. cbn.
    rewrite !timeOf_orZero. apply compare_sub. }
  split.
  { apply (StronglySorted_weaken
             (fun a b => (- timeOrZero getTime a <= - timeOrZero getTime b)%Qc)).
    { intros a b Hab. apply Qcopp_le_compat in Hab. by rewrite !Qcopp_involutive in Hab. }
    apply (sort_sorted _ (fun x => (- timeOrZero getTime x)%Qc)). intros x y. cbn.
    rewrite !timeOf_orZero. apply compare_opp_sub. }
  intros le Htotal Htrans Hle Hge. split.
  - apply (sort_ordered _ (fun a b => le (categoryOrEmpty a) (categoryOrEmpty b))).
    + intros x y. apply Htotal.
    + intros x y z. apply Htrans.
    + intros x y. cbn. rewrite !categoryOf_orEmpty. apply Hle.
  - apply (sort_ordered _ (fun a b => le (categoryOrEmpty b) (categoryOrEmpty a))).
    + intros x y. apply Htotal.
    + intros x y z Hxy Hyz. by apply (Htrans _ _ _ Hyz).
    + intros x y. cbn. rewrite !categoryOf_orEmpty, opp_nonpositive. apply Hge.
Qed.

(** Ascending by amount is a rearrangement in non-decreasing order. *)
Lemma sort_by_amount_ascending (expenses : list Expense) :
  sortedBy (Some by_amount) asc expenses ≡ₚ expenses
  /\ StronglySorted (fun a b => amountOf a <= amountOf b)%Qc
       (sortedBy (Some by_amount) asc expenses).
Proof.
  split; [apply sort_perm|].
  apply (sort_sorted _ amountOf). intros x y. apply compare_sub.
Qed.

(** With no column chosen the list is left as it is. *)
Lemma sort_by_nothing direction (expenses : list Expense) :
  sortedBy None direction expenses = expenses.
Proof.
  unfold sortedExpenses. induction expenses as [|e l IH]; [reflexivity|].
  cbn [JsArray.sort foldr]. unfold JsArray.sort in IH. rewrite IH.
  destruct l; reflexivity.
Qed.

End Sorting.

(** The modelled [convertExpenses] leaves [convertedCost] absent for an
    expense in another currency than the target for which no rate is
    found. *)
Lemma convertExpenses_without_rate user trip rawExpenses rates e c :
  e ∈ rawExpenses ->
  cost e = Some c ->
  Trips.currency c <> Helper.targetCurrency user trip ->
  Helper.findRate rates (Trips.currency c) (Helper.targetCurrency user trip) = None ->
  Helper.withConvertedCost e None ∈ Helper.convertExpenses user trip rawExpenses rates.
Proof.
  intros Hin Hcost Hother Hrate. unfold Helper.convertExpenses.
  apply list_elem_of_fmap. exists e. split; [|exact Hin].
  rewrite Hcost, bool_decide_eq_false_2 by exact Hother. by rewrite Hrate.
Qed.

Section Rendering.
Variable getTime : string -> number.
Variable localeCompare : string -> string -> number.
Variable formatDate : string -> string.
Variable convertExpenses :
  option User -> Trip -> list Expense -> list ConversionRate -> list Expense.
Variable props : Props.
Variable st : State.

Local Abbreviation rendered :=
  (render getTime localeCompare formatDate convertExpenses props st).
Local Abbreviation converted :=
  (convertExpenses (p_user props) (p_trip props)).
Local Abbreviation sortedNow :=
  (sortedExpenses getTime localeCompare (sortBy st) (sortDirection st)).

(** C2, as amended: an expense that comes back from the conversion without a
    converted cost adds nothing to the total and nothing to any category
    total (both are what they would be without it), and it still has its
    card in the grid; the card carries the name of the expense and no amount
    at all. *)
Theorem unconvertible_expense_listed_without_amount rawExpenses rates e :
  e ∈ converted rawExpenses rates ->
  convertedCost e = None ->
  exists before after cards,
    sortedNow (converted rawExpenses rates) = before ++ e :: after
    /\ r_total (rendered false (Some rawExpenses) (Some rates))
        = totalExpenses (before ++ after)
    /\ (forall tag,
          totalSoFar (categoryTotals (before ++ e :: after)) tag
          = totalSoFar (categoryTotals (before ++ after)) tag)
    /\ r_list (rendered false (Some rawExpenses) (Some rates)) = Grid cards
    /\ exists card,
         card ∈ cards /\ card_key card = id e /\ card_name card = Trips.name e
         /\ card_amount card = None.
Proof.
  intros Hin Habsent.
  assert (Hsorted : e ∈ sortedNow (converted rawExpenses rates)).
  { unfold sortedExpenses. by rewrite sort_perm. }
  apply list_elem_of_split in Hsorted as (before & after & Hsplit).
  pose proof (amountOf_absent e Habsent) as Hzero.
  exists before, after. eexists. split; [exact Hsplit|].
  unfold render. cbn [r_total r_list default from_option]. unfold Datatypes.id.
  rewrite Hsplit.
  split; [|split; [|split]].
  - rewrite !totalExpenses_sum, !map_app, !sumOf_app. cbn [map].
    change (sumOf (amountOf e :: map amountOf after))
      with (amountOf e + sumOf (map amountOf after))%Qc.
    rewrite Hzero. ring.
  - intros tag. rewrite !totalSoFar_group. by apply groupTotal_without.
  - rewrite bool_decide_eq_false_2; [reflexivity|].
    rewrite length_app. cbn. lia.
  - eexists. split.
    + unfold expenseCards. apply list_elem_of_fmap. eexists. split; [reflexivity|].
      rewrite elem_of_app, elem_of_cons. right. by left.
    + cbn. rewrite Habsent. done.
Qed.

End Rendering.

Import Samples.

(** The specification's scenarios, through the modelled [convertExpenses]:
    the hotel converts to 90 euros, the dinner is kept as it is, and the
    sushi has no converted cost. *)
Example scenarios_converted :
  map convertedCost
    (Helper.convertExpenses None europe [hotel; dinner; sushi] [usdToEur])
  = [Some {| value := num 90; Trips.currency := "EUR" |};
     Some {| value := num 50; Trips.currency := "EUR" |};
     None].
Proof. apply (bool_decide_unpack _). vm_compute. exact I. Qed.

(** C2, counterexample: the sushi of the scenario, 30 yen with no rate
    supplied, is listed by a card that shows no amount; the card has nothing
    to show the original 30 yen with. *)
Lemma unconvertible_card_shows_no_amount :
  cost sushi = Some {| value := num 30; Trips.currency := "JPY" |}
  /\ r_list (render epoch collate asWritten Helper.convertExpenses europeProps idle
               false (Some [sushi]) (Some []))
     = Grid [{| card_key := "c"; card_name := "Sushi"; card_date := None;
                card_category := "Other"; card_amount := None;
                card_attachments := Some [] |}].
Proof. split; reflexivity. Qed.

(** C2, at the scenario. *)
Lemma unconvertible_expense_sample :
  sushi ∈ Helper.convertExpenses None europe [hotel; dinner; sushi] [usdToEur]
  /\ convertedCost sushi = None
  /\ exists before after cards,
       sortedExpenses epoch collate None asc
         (Helper.convertExpenses None europe [hotel; dinner; sushi] [usdToEur])
       = before ++ sushi :: after
       /\ r_total (render epoch collate asWritten Helper.convertExpenses europeProps idle
                     false (Some [hotel; dinner; sushi]) (Some [usdToEur]))
          = totalExpenses (before ++ after)
       /\ (forall tag,
             totalSoFar (categoryTotals (before ++ sushi :: after)) tag
             = totalSoFar (categoryTotals (before ++ after)) tag)
       /\ r_list (render epoch collate asWritten Helper.convertExpenses europeProps idle
                     false (Some [hotel; dinner; sushi]) (Some [usdToEur]))
          = Grid cards
       /\ exists card,
            card ∈ cards /\ card_key card = id sushi
            /\ card_name card = Trips.name sushi /\ card_amount card = None.
Proof.
  assert (Hin : sushi ∈ Helper.convertExpenses None europe [hotel; dinner; sushi] [usdToEur]).
  { unfold Helper.convertExpenses. cbn [map].
    rewrite !elem_of_cons. right. right. left. reflexivity. }
  split; [exact Hin|]. split; [reflexivity|].
  exact (unconvertible_expense_listed_without_amount epoch collate asWritten
           Helper.convertExpenses europeProps idle
           [hotel; dinner; sushi] [usdToEur] sushi Hin eq_refl).
Defined.

(** C4, at the snack, the locker and the laundry. *)
Lemma category_totals_partition_sample :
  Forall (fun e => is_Some (convertedCost e)) [snack; locker; laundry]
  /\ Binary64.totalExpenses [snack; locker; laundry]
     = fold_left PrimFloat.add (Binary64.amounts [snack; locker; laundry]) PrimFloat.zero.
Proof.
  assert (Hall : Forall (fun e => is_Some (convertedCost e)) [snack; locker; laundry]).
  { repeat constructor; by eexists. }
  split; [exact Hall|].
  exact (proj1 (proj2 (proj2 (proj2
    (category_totals_partition [snack; locker; laundry] Hall))))).
Defined.

(** C4, counterexample: a snack of 0.10 under food, a locker of 0.20 and a
    laundry of 0.30 under lodging, each with its converted cost.  The
    program's category totals are 0.1 and 0.5, whose sum is the number 0.6;
    the program's total is 0.1 + 0.2 + 0.3 added from the left, which is the
    next number above, 0.6000000000000001. *)
Lemma category_totals_sum_is_not_the_total :
  Forall (fun e => is_Some (convertedCost e)) [snack; locker; laundry]
  /\ Binary64.categoryTotals [snack; locker; laundry]
     = [("food", Binary64.read (Q2Qc (1 # 10))); ("lodging", Binary64.read (Q2Qc (5 # 10)))]
  /\ fold_left PrimFloat.add (map snd (Binary64.categoryTotals [snack; locker; laundry]))
       PrimFloat.zero
     = Binary64.read (Q2Qc (6 # 10))
  /\ Binary64.totalExpenses [snack; locker; laundry]
     = Binary64.read (Q2Qc (6000000000000001 # 10000000000000000))
  /\ PrimFloat.eqb
       (fold_left PrimFloat.add (map snd (Binary64.categoryTotals [snack; locker; laundry]))
          PrimFloat.zero)
       (Binary64.totalExpenses [snack; locker; laundry]) = false.
Proof.
  split; [repeat constructor; by eexists|].
  repeat split; vm_compute; reflexivity.
Qed.

(** The category card for these expenses and the sushi: lodging first, the
    two groups of 50 in the order met, the sushi's empty group last. *)
Example sortedCategories_sample :
  categoryTotals [dinner50; hotel90; sushi; souvenir50]
  = [("food", num 50); ("lodging", num 90); ("other", num 0); ("souvenirs", num 50)]
  /\ sortedCategories [dinner50; hotel90; sushi; souvenir50]
  = [("lodging", num 90); ("food", num 50); ("souvenirs", num 50); ("other", num 0)].
Proof. split; apply (bool_decide_unpack _); vm_compute; exact I. Qed.

(** C6, at expenses of amounts 50, 90 and, for the sushi without a converted
    cost, 0. *)
Lemma sort_by_amount_sample :
  NoDup (map amountOrZero [dinner50; hotel90; sushi])
  /\ sortedExpenses epoch collate (Some by_amount) desc [dinner50; hotel90; sushi]
     = rev (sortedExpenses epoch collate (Some by_amount) asc [dinner50; hotel90; sushi]).
Proof.
  assert (Hnd : NoDup (map amountOrZero [dinner50; hotel90; sushi])).
  { apply (bool_decide_unpack _). vm_compute. exact I. }
  split; [exact Hnd|].
  exact (proj1 (sort_by_amount_descending_is_reverse epoch collate
                  [dinner50; hotel90; sushi] Hnd)).
Defined.

Example sort_by_amount_values :
  map Trips.name (sortedExpenses epoch collate (Some by_amount) asc [dinner50; hotel90; sushi])
  = ["Sushi"; "Dinner"; "Hotel"]
  /\ map Trips.name (sortedExpenses epoch collate (Some by_amount) desc [dinner50; hotel90; sushi])
  = ["Hotel"; "Dinner"; "Sushi"].
Proof. split; vm_compute; reflexivity. Qed.

End ViewFacts.

(** ** Saving an expense *)

Module SaveFacts.
Import Js Trips Api ExpensesPanel JsFacts.

Section Save.
Variable fakeAsUtcString : string -> string.
Variable remote : Remote.
Variable props : Props.

Local Abbreviation save := (onSave fakeAsUtcString remote props).
Local Abbreviation tripId := (trip_id (p_trip props)).
Local Abbreviation call := (saveCall fakeAsUtcString props).
Local Abbreviation answer := (saveCallAnswer fakeAsUtcString remote props).

Lemma saveBlocked_false st : saveBlocked st = false <-> saveRequirements st.
Proof.
  unfold saveBlocked, saveRequirements.
  rewrite !orb_false_iff, !negb_false_iff, !truthy_string_spec.
  split.
  - intros [[Hn Ha] Hc]. repeat split; try assumption.
    destruct (amount st) as [a|]; [|discriminate].
    exists a. split; [reflexivity|]. by apply truthy_number_spec.
  - intros (Hn & (a & Ha & Hz) & Hc). rewrite Ha.
    repeat split; try assumption. by apply truthy_number_spec.
Qed.

Lemma saveBlocked_true st : saveBlocked st = true <-> ~ saveRequirements st.
Proof.
  rewrite <- saveBlocked_false. destruct (saveBlocked st); split; congruence.
Qed.

(** A blocked save returns at once. *)
Lemma onSave_blocked st :
  saveBlocked st = true -> save st = (Returned tt, st, []).
Proof. intros Hb. unfold onSave. rewrite Hb. reflexivity. Qed.

(** The three ways a permitted save can go. *)
Lemma onSave_upload_rejected st :
  saveBlocked st = false ->
  uploadAttachments remote tripId (files st) = None ->
  save st =
    (Returned tt, setSaving false st,
     [UploadAttachments tripId (files st);
      ShowErrorNotification
        (match selectedExpense st with
         | Some _ => "Failed to update expense"
         | None => "Failed to create expense"
         end) "Please try again later."]).
Proof.
  intros Hb Hu. unfold onSave, run, try_catch_finally, saveBody, bind, await.
  rewrite Hb. simpl. rewrite Hu. reflexivity.
Qed.

Lemma onSave_call_rejected st uploaded :
  saveBlocked st = false ->
  uploadAttachments remote tripId (files st) = Some uploaded ->
  answer st uploaded = None ->
  save st =
    (Returned tt, setSaving false st,
     [UploadAttachments tripId (files st);
      call st uploaded;
      ShowErrorNotification
        (match selectedExpense st with
         | Some _ => "Failed to update expense"
         | None => "Failed to create expense"
         end) "Please try again later."]).
Proof.
  intros Hb Hu Hc. unfold onSave, run, try_catch_finally, saveBody, bind, await.
  rewrite Hb. simpl. rewrite Hu.
  unfold saveCallAnswer, saveCall in *.
  destruct (selectedExpense st) as [e|]; simpl; rewrite Hc; reflexivity.
Qed.

Lemma onSave_call_answered st uploaded saved :
  saveBlocked st = false ->
  uploadAttachments remote tripId (files st) = Some uploaded ->
  answer st uploaded = Some saved ->
  exists rest,
    effects_of (save st) =
      UploadAttachments tripId (files st)
        :: call st uploaded :: rest
    /\ Forall (fun e => expense_payload e = None) rest.
Proof.
  intros Hb Hu Hc. unfold onSave, run, try_catch_finally, saveBody, bind, await.
  rewrite Hb. simpl. rewrite Hu.
  unfold saveCallAnswer, saveCall in *.
  destruct (selectedExpense st) as [e|]; simpl; rewrite Hc; simpl;
    destruct (invalidateQueries remote ["listExpenses"; tripId]); simpl;
    try destruct (invalidateQueries remote ["getTripAttachments"; tripId]); simpl;
    eexists; (split; [reflexivity|]); repeat constructor.
Qed.

(** C1, as amended: [onSave] goes on to the upload, and after it to the
    create or update call, exactly when the name is not empty, the amount is a
    number other than zero and a currency code is present; in every other
    case it returns at once with the state as it was and no call made, and the
    save button is disabled. *)
Theorem onSave_proceeds_iff_required st :
  (saveRequirements st ->
     exists rest,
       effects_of (save st) = UploadAttachments tripId (files st) :: rest
       /\ forall uploaded,
            uploadAttachments remote tripId (files st) = Some uploaded ->
            exists rest', rest = call st uploaded :: rest')
  /\ (~ saveRequirements st ->
       save st = (Returned tt, st, []) /\ saveButtonDisabled st = true).
Proof.
  split.
  - intros Hreq. apply saveBlocked_false in Hreq.
    destruct (uploadAttachments remote tripId (files st)) as [uploaded|] eqn:Hu.
    + destruct (answer st uploaded) as [saved|] eqn:Ha.
      * destruct (onSave_call_answered st uploaded saved Hreq Hu Ha) as (rest & -> & _).
        eexists. split; [reflexivity|].
        intros ? [= <-]. eauto.
      * rewrite (onSave_call_rejected st uploaded Hreq Hu Ha).
        eexists. split; [reflexivity|].
        intros ? [= <-]. eauto.
    + rewrite (onSave_upload_rejected st Hreq Hu).
      eexists. split; [reflexivity|]. intros ? [=].
  - intros Hreq. apply saveBlocked_true in Hreq. split.
    + by apply onSave_blocked.
    + exact Hreq.
Qed.

(** C8: when the upload or the create/update call of a permitted save is
    rejected, [onSave] itself returns normally; what it did is the upload, at
    most one repository call, and one error notification with the title of
    the mode and the retry-later message; every cell of the form, the selected
    expense and the open modal are as before the save, and [saving] is off
    again. *)
Theorem onSave_failure_reported_form_kept st :
  saveRequirements st ->
  saveCallFails fakeAsUtcString remote props st ->
  outcome_of (save st) = Returned tt
  /\ (exists calls,
        effects_of (save st) =
          calls ++ [ShowErrorNotification
                      (match selectedExpense st with
                       | Some _ => "Failed to update expense"
                       | None => "Failed to create expense"
                       end) "Please try again later."]
        /\ (calls = [UploadAttachments tripId (files st)]
            \/ exists uploaded,
                 calls = [UploadAttachments tripId (files st); call st uploaded]))
  /\ state_of (save st) = setSaving false st
  /\ (name (state_of (save st)) = name st
      /\ amount (state_of (save st)) = amount st
      /\ currency (state_of (save st)) = currency st
      /\ occurredOn (state_of (save st)) = occurredOn st
      /\ notes (state_of (save st)) = notes st
      /\ category (state_of (save st)) = category st
      /\ files (state_of (save st)) = files st
      /\ existingAttachments (state_of (save st)) = existingAttachments st)
  /\ isModalOpen (state_of (save st)) = isModalOpen st
  /\ selectedExpense (state_of (save st)) = selectedExpense st
  /\ saving (state_of (save st)) = false.
Proof.
  intros Hreq Hfail. apply saveBlocked_false in Hreq.
  destruct Hfail as [Hu | (uploaded & Hu & Ha)].
  - rewrite (onSave_upload_rejected st Hreq Hu). cbn.
    split; [reflexivity|]. split.
    { eexists [_]. split; [reflexivity|]. by left. }
    repeat split.
  - rewrite (onSave_call_rejected st uploaded Hreq Hu Ha). cbn.
    split; [reflexivity|]. split.
    { eexists [_; _]. split; [reflexivity|]. right. by exists uploaded. }
    repeat split.
Qed.

End Save.

Import Samples.

Example addForm_requirements : saveRequirements (addForm (Some (num 12))).
Proof.
  repeat split; try discriminate.
  exists (num 12). split; [reflexivity|]. apply truthy_number_spec. reflexivity.
Qed.

(** An accepted save: upload, create, two invalidations, and the modal is
    closed with the form reset. *)
Example onSave_accepted :
  effects_of (onSave (fun d => d) accepting panelProps (addForm (Some (num 12)))) =
    [UploadAttachments "trip1" [];
     CreateExpense (savePayload (fun d => d) panelProps (addForm (Some (num 12))) []);
     InvalidateQueries ["listExpenses"; "trip1"];
     InvalidateQueries ["getTripAttachments"; "trip1"]]
  /\ isModalOpen (state_of (onSave (fun d => d) accepting panelProps (addForm (Some (num 12))))) = false.
Proof. split; reflexivity. Qed.

(** An empty amount: nothing happens. *)
Example onSave_empty_amount :
  onSave (fun d => d) accepting panelProps (addForm None) = (Returned tt, addForm None, []).
Proof. reflexivity. Qed.

(** C1, counterexample: an amount of [-5] is not positive, and the save goes
    through to the repository all the same. *)
Lemma onSave_negative_amount_saved :
  ~ (0 < num (-5))%Qc
  /\ effects_of (onSave (fun d => d) accepting panelProps (addForm (Some (num (-5))))) =
      [UploadAttachments "trip1" [];
       CreateExpense (savePayload (fun d => d) panelProps (addForm (Some (num (-5)))) []);
       InvalidateQueries ["listExpenses"; "trip1"];
       InvalidateQueries ["getTripAttachments"; "trip1"]]
  /\ savePayload (fun d => d) panelProps (addForm (Some (num (-5)))) [] !! "cost"
      = Some (money_record (JNumber (num (-5))) "USD").
Proof.
  split; [|split; reflexivity].
  intros H. vm_compute in H. discriminate.
Qed.

(** C8, at a sample: the create call is rejected. *)
Lemma onSave_failure_sample :
  saveRequirements (addForm (Some (num 12)))
  /\ saveCallFails (fun d => d) rejecting panelProps (addForm (Some (num 12)))
  /\ state_of (onSave (fun d => d) rejecting panelProps (addForm (Some (num 12))))
      = addForm (Some (num 12)).
Proof.
  assert (Hf : saveCallFails (fun d => d) rejecting panelProps (addForm (Some (num 12)))).
  { right. exists []. split; reflexivity. }
  split; [exact addForm_requirements|]. split; [exact Hf|].
  exact (proj1 (proj2 (proj2
    (onSave_failure_reported_form_kept (fun d => d) rejecting panelProps
       (addForm (Some (num 12))) addForm_requirements Hf)))).
Defined.

End SaveFacts.

(** ** Deleting an expense *)

Module DeleteFacts.
Import Js Trips Api ExpensesPanel.

Section Delete.
Variable remote : Remote.
Variable props : Props.

Local Abbreviation delete := (handleDelete remote props).

(** The scheduled mutation calls [deleteExpense] and then, if the call was
    accepted, invalidates the expense list; it never throws. *)
Lemma mutationRun_effects expenseId st log :
  exists settled,
    mutationRun remote props expenseId st log
    = (Returned tt, st, log ++ DeleteExpense expenseId :: settled)
    /\ (settled = [] \/ settled = [InvalidateQueries ["listExpenses"; trip_id (p_trip props)]])
    /\ (deleteExpense remote expenseId = None -> settled = []).
Proof.
  unfold mutationRun, try_catch_finally, bind, await, ret.
  destruct (deleteExpense remote expenseId).
  - destruct (invalidateQueries remote _); eexists;
      (split; [by rewrite <- ?app_assoc|]); (split; [by right|done]).
  - exists []. split; [reflexivity|]. split; [by left|done].
Qed.

Lemma handleDelete_confirmed e st :
  selectedExpense st = Some e ->
  exists settled,
    delete Confirm st =
      (Returned tt, closeModal props st,
       [OpenConfirmModal "Delete Expense" (deletionConfirmation (Trips.name e))
          "Delete" "Cancel";
        ShowDeleteNotification "Expenses"
          ("Expense " +:+ Trips.name e +:+ " has been deleted");
        DeleteExpense (id e)] ++ settled)
    /\ (settled = [] \/ settled = [InvalidateQueries ["listExpenses"; trip_id (p_trip props)]])
    /\ (deleteExpense remote (id e) = None -> settled = []).
Proof.
  intros He. unfold handleDelete, run. rewrite He.
  unfold onConfirm, removeExpense, bind, emit, update, ret. simpl.
  destruct (mutationRun_effects (id e) (closeModal props st)
              [OpenConfirmModal "Delete Expense" (deletionConfirmation (Trips.name e))
                 "Delete" "Cancel";
               ShowDeleteNotification "Expenses"
                 ("Expense " +:+ Trips.name e +:+ " has been deleted")])
    as (settled & Hs & Hcases & Hnone).
  exists settled. split; [exact Hs|]. by split.
Qed.

Lemma handleDelete_not_confirmed choice st :
  choice = Cancel \/ selectedExpense st = None ->
  state_of (delete choice st) = st
  /\ outcome_of (delete choice st) = Returned tt
  /\ Forall (fun e => is_repository_call e = false) (effects_of (delete choice st)).
Proof.
  intros Hc. unfold handleDelete, run.
  destruct (selectedExpense st) as [e|] eqn:He.
  - destruct Hc as [-> | [=]]. cbn. repeat split. repeat constructor.
  - cbn. repeat split. constructor.
Qed.

(** C7: the delete call is made only after the user confirmed the dialog that
    names the selected expense (a cancelled dialog calls nothing).  But the
    acknowledgement that the expense has been deleted is shown, and the edit
    surface closed, before the delete call is made and whatever it will
    answer; and when the call is rejected nothing reports it: the call is
    the last effect, no error notification is shown and the handler returns
    normally. *)
Theorem handleDelete_acknowledges_before_deleting e st :
  selectedExpense st = Some e ->
  (exists settled,
     effects_of (delete Confirm st) =
       [OpenConfirmModal "Delete Expense" (deletionConfirmation (Trips.name e))
          "Delete" "Cancel";
        ShowDeleteNotification "Expenses"
          ("Expense " +:+ Trips.name e +:+ " has been deleted");
        DeleteExpense (id e)] ++ settled
     /\ (settled = []
         \/ settled = [InvalidateQueries ["listExpenses"; trip_id (p_trip props)]])
     /\ (deleteExpense remote (id e) = None -> settled = []))
  /\ state_of (delete Confirm st) = closeModal props st
  /\ isModalOpen (state_of (delete Confirm st)) = false
  /\ outcome_of (delete Confirm st) = Returned tt
  /\ (forall title message,
        ShowErrorNotification title message ∉ effects_of (delete Confirm st))
  /\ Forall (fun x => is_repository_call x = false) (effects_of (delete Cancel st))
  /\ state_of (delete Cancel st) = st.
Proof.
  intros He.
  destruct (handleDelete_confirmed e st He) as (settled & Hrun & Hcases & Hnone).
  destruct (handleDelete_not_confirmed Cancel st (or_introl eq_refl)) as (Hst & _ & Hno).
  rewrite Hrun. cbn [effects_of state_of outcome_of fst snd].
  split; [by exists settled|].
  repeat split; try assumption.
  intros title message Hin. rewrite elem_of_app, !elem_of_cons, elem_of_nil in Hin.
  destruct Hin as [[[=] | [[=] | [[=] | []]]] | Hin].
  destruct Hcases as [-> | ->].
  - by apply elem_of_nil in Hin.
  - apply list_elem_of_singleton in Hin. discriminate.
Qed.

End Delete.

Import Samples.

(** A confirmed delete that the backend accepts. *)
Example handleDelete_accepted :
  effects_of (handleDelete accepting panelProps Confirm editForm) =
    [OpenConfirmModal "Delete Expense" (deletionConfirmation "Taxi") "Delete" "Cancel";
     ShowDeleteNotification "Expenses" "Expense Taxi has been deleted";
     DeleteExpense "exp1";
     InvalidateQueries ["listExpenses"; "trip1"]].
Proof. reflexivity. Qed.

(** C7, at the failing input: the taxi fare is selected, the user confirms,
    and the backend rejects the delete call (the expense is already gone).
    The panel has announced the deletion and closed the modal before the
    call, and no error notification follows it. *)
Lemma handleDelete_rejection_not_reported :
  selectedExpense editForm = Some taxi
  /\ deleteExpense rejecting (id taxi) = None
  /\ effects_of (handleDelete rejecting panelProps Confirm editForm) =
      [OpenConfirmModal "Delete Expense" (deletionConfirmation "Taxi") "Delete" "Cancel";
       ShowDeleteNotification "Expenses" "Expense Taxi has been deleted";
       DeleteExpense "exp1"]
  /\ isModalOpen (state_of (handleDelete rejecting panelProps Confirm editForm)) = false.
Proof.
  split; [reflexivity|]. split; [reflexivity|].
  destruct (handleDelete_acknowledges_before_deleting rejecting panelProps taxi editForm
              eq_refl) as ((settled & Hrun & _ & Hnone) & _ & Hclosed & _).
  split; [|exact Hclosed].
  rewrite Hrun, (Hnone eq_refl). reflexivity.
Defined.

End DeleteFacts.

(** ** Submitting the flight form *)

Module FlightFacts.
Import Js Trips Api FlightForm JsFacts.

Section Submit.
Variable fakeAsUtcString : string -> string.
Variable remote : Remote.
Variable props : Props.

Local Abbreviation submit := (handleFormSubmit fakeAsUtcString remote props).
Local Abbreviation data := (expenseData fakeAsUtcString props).

(** The expense call of [syncExpense], by the cost entered and the linked
    expense. *)
Lemma syncExpense_effects values expenseId st log :
  exists out log',
    syncExpense fakeAsUtcString remote props values expenseId st log = (out, st, log ++ log')
    /\ (if hasCost values then
          if truthy expenseId then
            log' = [UpdateExpense (default "" expenseId) (object [("cost", costRecord values)])]
            /\ (out = Thrown \/ out = Returned expenseId)
          else
            log' = [CreateExpense (data values)]
            /\ (out = Thrown \/ exists created, out = Returned (Some (id created)))
        else
          if truthy expenseId then
            log' = [DeleteExpense (default "" expenseId)]
            /\ (out = Thrown \/ out = Returned None)
          else log' = [] /\ out = Returned expenseId).
Proof.
  unfold syncExpense, bind, await, ret.
  destruct (hasCost values), (truthy expenseId).
  - destruct (updateExpense remote _ _); eexists _, _; (split; [reflexivity|]); eauto.
  - destruct (createExpense remote _); eexists _, _; (split; [reflexivity|]); eauto.
  - destruct (deleteExpense remote _); eexists _, _; (split; [reflexivity|]); eauto.
  - eexists _, []. rewrite app_nil_r. eauto.
Qed.

(** The effects of a submit: the upload, the expense call if any, and then
    calls that carry no expense payload. *)
Lemma handleFormSubmit_effects values st :
  exists expenseCalls rest,
    effects_of (submit values st) =
      UploadAttachments (trip_id (p_trip props)) (files st) :: expenseCalls ++ rest
    /\ Forall (fun e => expense_payload e = None) rest
    /\ (expenseCalls = []
        \/ (hasCost values = true
            /\ (expenseCalls = [CreateExpense (data values)]
                \/ exists expenseId,
                     expenseCalls =
                       [UpdateExpense expenseId (object [("cost", costRecord values)])]))
        \/ (hasCost values = false /\ exists expenseId, expenseCalls = [DeleteExpense expenseId])).
Proof.
  unfold handleFormSubmit, run, try_catch_finally, submitBody.
  unfold bind at 1. unfold update at 1. cbn beta iota.
  unfold bind at 1. unfold bind at 2. unfold await at 1.
  destruct (uploadAttachments remote _ _) as [attachments|]; cbn beta iota.
  2: { eexists [], [_]. split; [reflexivity|]. split; [repeat constructor | by left]. }
  unfold bind at 1.
  destruct (syncExpense_effects values (linkedExpenseId props st) (setSaving true st)
              ([] ++ [UploadAttachments (trip_id (p_trip props)) (files st)]))
    as (out & calls & -> & Hcalls).
  assert (Hshape :
    calls = []
    \/ (hasCost values = true
        /\ (calls = [CreateExpense (data values)]
            \/ exists expenseId,
                 calls = [UpdateExpense expenseId (object [("cost", costRecord values)])]))
    \/ (hasCost values = false /\ exists expenseId, calls = [DeleteExpense expenseId])).
  { destruct (hasCost values), (truthy (linkedExpenseId props st));
      destruct Hcalls as [-> _]; eauto 8. }
  destruct out as [expenseId|]; cbn beta iota.
  2: { eexists calls, [_]. split; [cbn; by rewrite <- ?app_assoc|].
       split; [repeat constructor | exact Hshape]. }
  destruct (truthy (transportation st ≫= t_id)); unfold bind, update, await, emit; cbn beta iota.
  - destruct (updateTransportation remote _ _); cbn;
      [eexists calls, [_; _] | eexists calls, [_; _]];
      (split; [by rewrite <- ?app_assoc|]);
      (split; [repeat constructor | exact Hshape]).
  - destruct (createTransportationEntry remote _); cbn;
      [eexists calls, [_; _] | eexists calls, [_; _]];
      (split; [by rewrite <- ?app_assoc|]);
      (split; [repeat constructor | exact Hshape]).
Qed.

(** An expense payload sent by the form is the cost record alone or the
    object of a new expense, and is sent only for a positive cost. *)
Lemma handleFormSubmit_expense_payload values st p :
  p ∈ omap expense_payload (effects_of (submit values st)) ->
  hasCost values = true
  /\ (p = object [("cost", costRecord values)] \/ p = data values).
Proof.
  destruct (handleFormSubmit_effects values st) as (calls & rest & -> & Hrest & Hcalls).
  cbn [omap list_omap expense_payload]. rewrite omap_app.
  assert (Hnone : omap expense_payload rest = []).
  { clear -Hrest. induction Hrest as [|e rest He _ IH]; [reflexivity|].
    cbn. rewrite He. exact IH. }
  rewrite Hnone, app_nil_r.
  destruct Hcalls as [-> | [(Hc & [-> | (eid & ->)]) | (_ & eid & ->)]]; cbn;
    intros Hin; try (by apply elem_of_nil in Hin);
    apply list_elem_of_singleton in Hin as ->; auto.
Qed.

(** The object sent for the transportation never names an expense; only the
    branch that creates a transportation adds the field afterwards. *)
Lemma transportationPayload_no_expenseId values :
  transportationPayload fakeAsUtcString props values !! "expenseId" = None.
Proof. reflexivity. Qed.

End Submit.

Import Samples.

(** A new flight with a cost: the expense is created and the transportation
    is created with its id. *)
Example submit_new_flight_linked :
  effects_of (handleFormSubmit (fun d => d) accepting flightProps
                (flightValues (Some (num 120))) newFlight)
  = [UploadAttachments "trip1" [];
     CreateExpense (expenseData (fun d => d) flightProps (flightValues (Some (num 120))));
     CreateTransportationEntry
       (<["expenseId" := JString "exp9"]>
          (<["attachmentReferences" := JStrings []]>
             (transportationPayload (fun d => d) flightProps
                (flightValues (Some (num 120))))));
     OnSuccess].
Proof. reflexivity. Qed.

(** C10, at the failing input: a stored flight without an expense is
    submitted with a cost of 120.  The expense is created and its id is
    assigned to the caller's transportation object, but the object sent to
    [updateTransportation] has no [expenseId]: the stored flight is not
    linked to the expense created for it. *)
Lemma submit_stored_flight_not_linked :
  hasCost (flightValues (Some (num 120))) = true
  /\ effects_of (handleFormSubmit (fun d => d) accepting flightProps
                   (flightValues (Some (num 120))) (storedFlight None))
     = [UploadAttachments "trip1" [];
        CreateExpense (expenseData (fun d => d) flightProps (flightValues (Some (num 120))));
        UpdateTransportation "tr1"
          (transportationPayload (fun d => d) flightProps (flightValues (Some (num 120))));
        OnSuccess]
  /\ (savedTransportation
        (effects_of (handleFormSubmit (fun d => d) accepting flightProps
                       (flightValues (Some (num 120))) (storedFlight None)))
        ≫= (fun payload => payload !! "expenseId")) = None
  /\ (transportation
        (state_of (handleFormSubmit (fun d => d) accepting flightProps
                     (flightValues (Some (num 120))) (storedFlight None)))
        ≫= t_expenseId) = Some "exp9".
Proof. repeat split; reflexivity. Qed.

(** The same defect when the cost is removed: the linked expense is
    deleted, and nothing sent to the backend clears the reference to it. *)
Example submit_stored_flight_cost_removed :
  effects_of (handleFormSubmit (fun d => d) accepting flightProps
                (flightValues None) (storedFlight (Some "exp1")))
  = [UploadAttachments "trip1" [];
     DeleteExpense "exp1";
     UpdateTransportation "tr1"
       (transportationPayload (fun d => d) flightProps (flightValues None));
     OnSuccess]
  /\ transportationPayload (fun d => d) flightProps (flightValues None) !! "expenseId" = None.
Proof. split; reflexivity. Qed.

End FlightFacts.

(** ** What is persisted *)

Module PersistedFacts.
Import Js Trips Api JsFacts.

Lemma omap_no_payload (rest : list Effect) :
  Forall (fun e => expense_payload e = None) rest -> omap expense_payload rest = [].
Proof.
  induction 1 as [|e rest He _ IH]; [reflexivity|]. cbn. rewrite He. exact IH.
Qed.

(** An expense payload sent by [onSave] is the payload built from the form,
    and the form then holds an amount. *)
Lemma onSave_expense_payload fakeAsUtcString remote props st p :
  p ∈ omap expense_payload (effects_of (ExpensesPanel.onSave fakeAsUtcString remote props st)) ->
  exists a ids,
    ExpensesPanel.amount st = Some a
    /\ p = ExpensesPanel.savePayload fakeAsUtcString props st ids.
Proof.
  intros Hin.
  destruct (ExpensesPanel.saveBlocked st) eqn:Hb.
  { rewrite (SaveFacts.onSave_blocked _ _ _ _ Hb) in Hin. by apply elem_of_nil in Hin. }
  pose proof (proj1 (SaveFacts.saveBlocked_false st) Hb) as (_ & (a & Ha & _) & _).
  exists a.
  destruct (uploadAttachments remote (trip_id (ExpensesPanel.p_trip props))
              (ExpensesPanel.files st)) as [uploaded|] eqn:Hu.
  2: { rewrite (SaveFacts.onSave_upload_rejected _ _ _ _ Hb Hu) in Hin.
       by apply elem_of_nil in Hin. }
  assert (Hcall :
    expense_payload (ExpensesPanel.saveCall fakeAsUtcString props st uploaded) =
    Some (ExpensesPanel.savePayload fakeAsUtcString props st
            (map att_id (ExpensesPanel.existingAttachments st) ++ map att_id uploaded))).
  { unfold ExpensesPanel.saveCall. by destruct (ExpensesPanel.selectedExpense st). }
  eexists. split; [exact Ha|].
  destruct (ExpensesPanel.saveCallAnswer fakeAsUtcString remote props st uploaded)
    as [saved|] eqn:Hans.
  - destruct (SaveFacts.onSave_call_answered _ _ _ _ _ _ Hb Hu Hans) as (rest & Heff & Hrest).
    rewrite Heff in Hin. cbn [omap list_omap expense_payload] in Hin.
    rewrite Hcall, (omap_no_payload _ Hrest) in Hin.
    by apply list_elem_of_singleton in Hin.
  - rewrite (SaveFacts.onSave_call_rejected _ _ _ _ _ Hb Hu Hans) in Hin.
    cbn [effects_of snd omap list_omap expense_payload] in Hin. rewrite Hcall in Hin.
    by apply list_elem_of_singleton in Hin.
Qed.

Lemma savePayload_fields fakeAsUtcString props st ids k :
  is_Some (ExpensesPanel.savePayload fakeAsUtcString props st ids !! k) ->
  k ∈ ["name"; "trip"; "cost"; "occurredOn"; "notes"; "category"; "attachmentReferences"].
Proof.
  intros [v H]. apply object_lookup_Some in H.
  repeat (apply elem_of_cons in H as [H|H]; [inversion H; subst; set_solver|]).
  by apply elem_of_nil in H.
Qed.

Lemma expenseData_fields fakeAsUtcString props values k :
  is_Some (FlightForm.expenseData fakeAsUtcString props values !! k) ->
  k ∈ ["name"; "trip"; "cost"; "occurredOn"; "category"].
Proof.
  intros [v H]. apply object_lookup_Some in H.
  repeat (apply elem_of_cons in H as [H|H]; [inversion H; subst; set_solver|]).
  by apply elem_of_nil in H.
Qed.

Lemma costOnly_fields c k :
  is_Some (object [("cost", c)] !! k) ->
  k ∈ ["name"; "trip"; "cost"; "occurredOn"; "category"].
Proof.
  intros [v H]. apply object_lookup_Some in H.
  apply list_elem_of_singleton in H. inversion H; subst. set_solver.
Qed.

(** C3: every payload that [onSave] of the expenses panel or the submit of
    the flight form sends to the expense repository, for a create or for an
    update, has as its [cost] the amount and the currency code of the form,
    has no [convertedCost], and has no field besides the ones the form
    fills. *)
Theorem persisted_cost_is_entered_cost :
  (forall fakeAsUtcString remote props st p,
     p ∈ omap expense_payload
           (effects_of (ExpensesPanel.onSave fakeAsUtcString remote props st)) ->
     exists a,
       ExpensesPanel.amount st = Some a
       /\ p !! "cost" = Some (money_record (JNumber a) (ExpensesPanel.currency st))
       /\ p !! "convertedCost" = None
       /\ forall k, is_Some (p !! k) ->
            k ∈ ["name"; "trip"; "cost"; "occurredOn"; "notes"; "category";
                 "attachmentReferences"])
  /\ (forall fakeAsUtcString remote props values st p,
        p ∈ omap expense_payload
              (effects_of (FlightForm.handleFormSubmit fakeAsUtcString remote props values st)) ->
        exists c,
          FlightForm.cost values = Some c
          /\ p !! "cost" = Some (money_record (JNumber c) (FlightForm.currencyCode values))
          /\ p !! "convertedCost" = None
          /\ forall k, is_Some (p !! k) ->
               k ∈ ["name"; "trip"; "cost"; "occurredOn"; "category"]).
Proof.
  split.
  - intros f remote props st p Hin.
    destruct (onSave_expense_payload f remote props st p Hin) as (a & ids & Ha & ->).
    exists a. split; [exact Ha|]. split; [|split].
    + unfold ExpensesPanel.savePayload, ExpensesPanel.Number. rewrite Ha. reflexivity.
    + reflexivity.
    + apply savePayload_fields.
  - intros f remote props values st p Hin.
    destruct (FlightFacts.handleFormSubmit_expense_payload f remote props values st p Hin)
      as (Hcost & Hp).
    unfold FlightForm.hasCost in Hcost.
    destruct (FlightForm.cost values) as [c|] eqn:Hc; [|discriminate].
    exists c. split; [reflexivity|].
    assert (Hrec : FlightForm.costRecord values
                   = money_record (JNumber c) (FlightForm.currencyCode values)).
    { unfold FlightForm.costRecord. by rewrite Hc. }
    destruct Hp as [-> | ->].
    + split; [by rewrite <- Hrec|]. split; [reflexivity|]. apply costOnly_fields.
    + split; [by rewrite <- Hrec|]. split; [reflexivity|]. apply expenseData_fields.
Qed.

Import Samples.

(** The theorem speaks of payloads that exist: an edit saved from the panel
    and a flight stored with a cost each send one. *)
Example onSave_sends_payload :
  omap expense_payload (effects_of (ExpensesPanel.onSave (fun d => d) accepting panelProps editForm))
  = [ExpensesPanel.savePayload (fun d => d) panelProps editForm []]
  /\ ExpensesPanel.savePayload (fun d => d) panelProps editForm [] !! "cost"
     = Some (money_record (JNumber (num 30)) "USD").
Proof. split; reflexivity. Qed.

Example submit_sends_payload :
  omap expense_payload
    (effects_of (FlightForm.handleFormSubmit (fun d => d) accepting flightProps
                   (flightValues (Some (num 120))) (storedFlight (Some "exp1"))))
  = [object [("cost", money_record (JNumber (num 120)) "USD")]].
Proof. reflexivity. Qed.

End PersistedFacts.

(** ** Listing the expenses of a trip *)

Module RepositoryFacts.
Import Js Trips Repository.

(** Appending a suffix can be undone. *)
Lemma length_append (s t : string) :
  String.length (s +:+ t) = (String.length s + String.length t)%nat.
Proof.
  induction s as [|x s IH]; [reflexivity|].
  change (String x s +:+ t) with (String x (s +:+ t)). cbn [String.length]. by rewrite IH.
Qed.

Lemma app_inj_tail_string (a b c : string) : a +:+ c = b +:+ c -> a = b.
Proof.
  revert b. induction a as [|x a IH]; intros [|y b] H.
  - reflexivity.
  - apply (f_equal String.length) in H. rewrite !length_append in H. cbn in H. lia.
  - apply (f_equal String.length) in H. rewrite !length_append in H. cbn in H. lia.
  - change (String x (a +:+ c) = String y (b +:+ c)) in H.
    injection H as -> H. f_equal. by apply IH.
Qed.

Section ListExpenses.
Variable convertSavedToBrowserDate : string -> string.
Variable matches : string -> Expense -> bool.
Variable order : string -> list Expense -> list Expense.
Variable stored : list Expense.

Local Abbreviation browserDate := (withBrowserDate convertSavedToBrowserDate).
Local Abbreviation list := (listExpenses convertSavedToBrowserDate).

Lemma withBrowserDate_returned item :
  returnedFor convertSavedToBrowserDate item (browserDate item).
Proof.
  unfold returnedFor, withBrowserDate. cbn. repeat split.
  destruct (occurredOn item) as [d|]; [|reflexivity].
  unfold truthy_string. case_bool_decide; destruct (decide (d = "")); done.
Qed.

Lemma map_returned items :
  Forall2 (returnedFor convertSavedToBrowserDate) items (map browserDate items).
Proof.
  induction items as [|item items IH]; constructor; [|exact IH].
  apply withBrowserDate_returned.
Qed.

(** C9: [listExpenses] makes one request, for page 1 of 200 records with the
    filter [trip="<tripId>"] and the sort [-occurredOn,-created]; a rejection
    is passed on, and otherwise the items of the page come back one for one,
    in their order, with a present [occurredOn] converted and every other
    field as it was.  Against a collection whose filter reads that expression
    as the expenses of the trip, the result is the first 200 of the trip's
    expenses in the backend's order: all of them belong to the trip, and when
    more than 200 do, exactly 200 come back, as an ordinary result. *)
Theorem listExpenses_first_page_only tripId :
  (forall e, matches ("trip=" +:+ dquote +:+ tripId +:+ dquote) e = bool_decide (trip e = tripId)) ->
  (forall sortExpression l, order sortExpression l ≡ₚ l) ->
  (forall getList,
     match getList 1%nat 200%nat
             {| filter := "trip=" +:+ dquote +:+ tripId +:+ dquote;
                sort := "-occurredOn,-created" |} with
     | None => list getList tripId = None
     | Some items =>
         exists entries,
           list getList tripId = Some entries
           /\ Forall2 (returnedFor convertSavedToBrowserDate) items entries
     end)
  /\ exists entries,
       list (collectionGetList matches order stored) tripId = Some entries
       /\ Forall2 (returnedFor convertSavedToBrowserDate)
            (take 200 (order "-occurredOn,-created"
                         (List.filter (fun e => bool_decide (trip e = tripId)) stored)))
            entries
       /\ Forall (fun entry => trip entry = tripId) entries
       /\ length entries
          = Nat.min 200 (length (List.filter (fun e => bool_decide (trip e = tripId)) stored)).
Proof.
  intros Hmatch Hperm. split.
  - intros getList. unfold listExpenses, tripFilter.
    destruct (getList _ _ _) as [items|]; [|reflexivity].
    cbn. eexists. split; [reflexivity|]. apply map_returned.
  - unfold listExpenses, collectionGetList, tripFilter. cbn. rewrite drop_0.
    rewrite (List.filter_ext _ _ Hmatch).
    eexists. split; [reflexivity|]. split; [apply map_returned|]. split.
    + rewrite Forall_forall. intros entry (item & -> & Hitem)%list_elem_of_fmap.
      apply elem_of_take in Hitem as (i & Hitem & _).
      apply list_elem_of_lookup_2 in Hitem. rewrite Hperm in Hitem.
      apply list_elem_of_In, List.filter_In in Hitem as [_ Hitem].
      apply bool_decide_eq_true in Hitem. exact Hitem.
    + rewrite length_map, length_take. by rewrite Hperm.
Qed.

End ListExpenses.

Import Samples.

(** The sample filter reads [trip="<id>"] as the expenses of that trip. *)
Lemma tripIs_spec tripId e :
  tripIs ("trip=" +:+ dquote +:+ tripId +:+ dquote) e = bool_decide (trip e = tripId).
Proof.
  unfold tripIs. apply bool_decide_ext. split.
  - intros H. apply (inj (String.append "trip=")), (inj (String.append dquote)) in H.
    symmetry. by apply app_inj_tail_string in H.
  - by intros ->.
Qed.

(** C9, at a collection that holds 201 expenses of the trip and one of
    another trip: 200 come back, all of the trip. *)
Lemma listExpenses_truncates_sample :
  length (List.filter (fun e => bool_decide (trip e = "trip1")) (replicate 201 taxi ++ [hotel]))
  = 201%nat
  /\ exists entries,
       listExpenses asWritten
         (collectionGetList tripIs (fun _ l => l) (replicate 201 taxi ++ [hotel])) "trip1"
       = Some entries
       /\ Forall (fun entry => trip entry = "trip1") entries
       /\ length entries = 200%nat.
Proof.
  split; [reflexivity|].
  destruct (proj2 (listExpenses_first_page_only asWritten tripIs (fun _ l => l)
                     (replicate 201 taxi ++ [hotel]) "trip1"
                     (tripIs_spec "trip1") (fun _ l => reflexivity l)))
    as (entries & Hentries & _ & Htrip & Hlength).
  exists entries. split; [exact Hentries|]. split; [exact Htrip|exact Hlength].
Defined.

End RepositoryFacts.

(** ** The expense form: opening, saving, closing *)

Module PanelFormFacts.
Import Js Trips Api ExpensesPanel JsFacts.

Lemma trim_start_spaces cs :
  Forall (fun c => JsArray.is_space c = true) cs -> JsArray.trim_start cs = [].
Proof.
  induction 1 as [|c cs Hc _ IH]; [reflexivity|]. cbn. by rewrite Hc.
Qed.

Lemma trim_spaces s :
  Forall (fun c => JsArray.is_space c = true) (String.list_ascii_of_string s) ->
  JsArray.trim s = "".
Proof.
  intros Hs. unfold JsArray.trim. by rewrite (trim_start_spaces _ Hs).
Qed.

Lemma string_or_nonempty s d : d <> "" -> string_or s d <> "".
Proof.
  intros Hd. unfold string_or. destruct (truthy_string s) eqn:Hs; [|exact Hd].
  by apply truthy_string_spec.
Qed.

Lemma defaultCurrency_nonempty props : defaultCurrency props <> "".
Proof. unfold defaultCurrency. apply string_or_nonempty, string_or_nonempty. done. Qed.

Section Form.
Variable fakeAsUtcString : string -> string.
Variable remote : Remote.
Variable props : Props.

Local Abbreviation save := (onSave fakeAsUtcString remote props).
Local Abbreviation tripId := (trip_id (p_trip props)).
Local Abbreviation payloadOf := (savePayload fakeAsUtcString props).
Local Abbreviation call := (saveCall fakeAsUtcString props).
Local Abbreviation answer := (saveCallAnswer fakeAsUtcString remote props).

(** X1: a permitted save that the backend accepts throughout makes four
    calls in this order: the upload, the create or update whose
    [attachmentReferences] are the ids already attached followed by the ids
    just uploaded, and the invalidation of the expense list and of the trip's
    attachment list; it ends with the modal closed, nothing selected, the
    form emptied and [saving] off. *)
Theorem onSave_accepted_closes_modal st uploaded saved :
  saveRequirements st ->
  uploadAttachments remote tripId (files st) = Some uploaded ->
  answer st uploaded = Some saved ->
  invalidateQueries remote ["listExpenses"; tripId] = Some tt ->
  invalidateQueries remote ["getTripAttachments"; tripId] = Some tt ->
  save st =
    (Returned tt, setSaving false (closeModal props st),
     [UploadAttachments tripId (files st);
      call st uploaded;
      InvalidateQueries ["listExpenses"; tripId];
      InvalidateQueries ["getTripAttachments"; tripId]])
  /\ (exists payload,
        expense_payload (call st uploaded) = Some payload
        /\ payload !! "attachmentReferences"
           = Some (JStrings (map att_id (existingAttachments st) ++ map att_id uploaded)))
  /\ isModalOpen (state_of (save st)) = false
  /\ selectedExpense (state_of (save st)) = None
  /\ saving (state_of (save st)) = false
  /\ saveButtonDisabled (state_of (save st)) = true.
Proof.
  intros Hreq Hu Ha Hi1 Hi2. apply SaveFacts.saveBlocked_false in Hreq.
  assert (Hrun :
    save st =
      (Returned tt, setSaving false (closeModal props st),
       [UploadAttachments tripId (files st);
        call st uploaded;
        InvalidateQueries ["listExpenses"; tripId];
        InvalidateQueries ["getTripAttachments"; tripId]])).
  { unfold onSave, run, try_catch_finally, saveBody, bind, await, update.
    rewrite Hreq. cbn beta iota. rewrite Hu. cbn beta iota.
    unfold saveCallAnswer, saveCall in *.
    destruct (selectedExpense st) as [e|]; cbn beta iota; rewrite Ha; cbn beta iota;
      rewrite Hi1; cbn beta iota; rewrite Hi2; reflexivity. }
  split; [exact Hrun|]. split.
  { unfold saveCall. destruct (selectedExpense st); eexists; (split; [reflexivity|]);
      reflexivity. }
  rewrite Hrun. repeat split.
Qed.

(** X2: the guard looks at the name before it is trimmed: a name made of
    white space only passes it, and the payload then carries the empty
    name. *)
Theorem whitespace_name_is_saved_empty st ids :
  name st <> "" ->
  Forall (fun c => JsArray.is_space c = true) (String.list_ascii_of_string (name st)) ->
  (exists a, amount st = Some a /\ a <> 0%Qc) ->
  currency st <> "" ->
  saveBlocked st = false
  /\ payloadOf st ids !! "name" = Some (JString "").
Proof.
  intros Hname Hspaces Hamount Hcurrency. split.
  - by apply SaveFacts.saveBlocked_false.
  - unfold savePayload. rewrite (trim_spaces _ Hspaces). reflexivity.
Qed.


(** X4: an expense whose stored cost is missing or zero opens with an empty
    amount, so that its edit form cannot be saved until an amount is
    entered. *)
Theorem edit_zero_cost_is_blocked expense st0 :
  (cost expense = None \/ exists c, cost expense = Some c /\ value c = 0%Qc) ->
  amount (openModalForEdit props expense st0) = None
  /\ saveButtonDisabled (openModalForEdit props expense st0) = true
  /\ save (openModalForEdit props expense st0)
     = (Returned tt, openModalForEdit props expense st0, []).
Proof.
  intros Hcost.
  assert (Hamount : amount (openModalForEdit props expense st0) = None).
  { unfold openModalForEdit. cbn.
    destruct Hcost as [-> | (c & -> & Hzero)]; [reflexivity|].
    rewrite Hzero. reflexivity. }
  assert (Hblocked : saveBlocked (openModalForEdit props expense st0) = true).
  { unfold saveBlocked. rewrite Hamount. cbn. by rewrite orb_true_r. }
  split; [exact Hamount|]. split; [exact Hblocked|].
  by apply SaveFacts.onSave_blocked.
Qed.

(** X5: a permitted save of an edit whose upload is accepted makes exactly
    one call on the expense collection: an update of the edited expense whose
    [attachmentReferences] hold an id exactly when the expense references it
    and it is among the trip attachments, or it is the id of an upload.  A
    reference to an attachment that is not among the trip attachments is
    dropped. *)
Theorem edit_sends_known_attachment_references expense st0 uploaded :
  saveRequirements (openModalForEdit props expense st0) ->
  uploadAttachments remote tripId (files (openModalForEdit props expense st0))
  = Some uploaded ->
  exists payload ids,
    List.filter (fun e => bool_decide (is_Some (expense_payload e)))
      (effects_of (save (openModalForEdit props expense st0)))
    = [UpdateExpense (id expense) payload]
    /\ payload !! "attachmentReferences" = Some (JStrings ids)
    /\ (forall r,
          r ∈ ids
          <-> (r ∈ default [] (attachmentReferences expense)
               /\ r ∈ map att_id (default [] (p_tripAttachments props)))
              \/ r ∈ map att_id uploaded).
Proof.
  intros Hreq Hu.
  set (st := openModalForEdit props expense st0) in *.
  assert (Hselected : selectedExpense st = Some expense) by reflexivity.
  apply SaveFacts.saveBlocked_false in Hreq.
  exists (payloadOf st (map att_id (existingAttachments st) ++ map att_id uploaded)).
  exists (map att_id (existingAttachments st) ++ map att_id uploaded).
  split; [|split; [reflexivity|]].
  - unfold onSave, run, try_catch_finally, saveBody, saveFailed, bind, await, update, emit, ret.
    rewrite Hreq. cbn beta iota. rewrite Hu. cbn beta iota. rewrite Hselected.
    cbn beta iota.
    destruct (updateExpense remote (id expense) _); cbn beta iota; [|reflexivity].
    destruct (invalidateQueries remote ["listExpenses"; tripId]); cbn beta iota;
      [|reflexivity].
    destruct (invalidateQueries remote ["getTripAttachments"; tripId]); reflexivity.
  - intros r. rewrite elem_of_app. subst st. unfold openModalForEdit. cbn.
    assert (Hexisting :
      r ∈ map att_id
            (filter (fun a => att_id a ∈ default [] (attachmentReferences expense))
               (default [] (p_tripAttachments props)))
      <-> r ∈ default [] (attachmentReferences expense)
          /\ r ∈ map att_id (default [] (p_tripAttachments props))).
    { split.
      - intros (a & -> & Ha)%list_elem_of_fmap.
        apply list_elem_of_filter in Ha as [Href Ha].
        split; [exact Href|]. apply list_elem_of_fmap. by exists a.
      - intros (Href & (a & -> & Ha)%list_elem_of_fmap).
        apply list_elem_of_fmap. exists a. split; [reflexivity|].
        by apply list_elem_of_filter. }
    by rewrite Hexisting.
Qed.

End Form.

Import Samples.

(** X1, at the sample edit form and the accepting backend. *)
Lemma onSave_accepted_sample :
  saveRequirements editForm
  /\ onSave asWritten accepting panelProps editForm =
     (Returned tt, setSaving false (closeModal panelProps editForm),
      [UploadAttachments "trip1" [];
       saveCall asWritten panelProps editForm [];
       InvalidateQueries ["listExpenses"; "trip1"];
       InvalidateQueries ["getTripAttachments"; "trip1"]]).
Proof.
  assert (Hreq : saveRequirements editForm).
  { apply SaveFacts.saveBlocked_false. reflexivity. }
  split; [exact Hreq|].
  exact (proj1 (onSave_accepted_closes_modal asWritten accepting panelProps editForm
                  [] savedExpense Hreq eq_refl eq_refl eq_refl eq_refl)).
Defined.

(** X2, at a name of two spaces. *)
Lemma whitespace_name_sample :
  name (with_form (addForm (Some (num 12))) "  " (Some (num 12)) "USD" None "" None [] [])
  <> ""
  /\ savePayload asWritten panelProps
       (with_form (addForm (Some (num 12))) "  " (Some (num 12)) "USD" None "" None [] [])
       [] !! "name" = Some (JString "").
Proof.
  assert (Hname :
    name (with_form (addForm (Some (num 12))) "  " (Some (num 12)) "USD" None "" None [] [])
    <> "") by discriminate.
  split; [exact Hname|].
  refine (proj2 (whitespace_name_is_saved_empty asWritten panelProps _ [] Hname _ _ _)).
  - repeat constructor.
  - exists (num 12). split; [reflexivity|]. apply truthy_number_spec. reflexivity.
  - discriminate.
Defined.


(** X4, at a stored expense without a cost. *)
Lemma edit_zero_cost_sample :
  cost savedExpense = None
  /\ saveButtonDisabled (openModalForEdit panelProps savedExpense (addForm None)) = true.
Proof.
  split; [reflexivity|].
  exact (proj1 (proj2 (edit_zero_cost_is_blocked asWritten accepting panelProps
                         savedExpense (addForm None) (or_introl eq_refl)))).
Defined.

(** X5, at the stored taxi fare. *)
Lemma edit_sends_references_sample :
  exists payload ids,
    List.filter (fun e => bool_decide (is_Some (expense_payload e)))
      (effects_of (onSave asWritten accepting panelProps editForm))
    = [UpdateExpense "exp1" payload]
    /\ payload !! "attachmentReferences" = Some (JStrings ids).
Proof.
  assert (Hreq : saveRequirements editForm).
  { apply SaveFacts.saveBlocked_false. reflexivity. }
  destruct (edit_sends_known_attachment_references asWritten accepting panelProps
              taxi (addForm None) [] Hreq eq_refl)
    as (payload & ids & Hcall & Hrefs & _).
  exists payload, ids. by split.
Defined.

End PanelFormFacts.

(** ** The list, the cards and the summary cards *)

Module PanelViewFacts.
Import Js Trips ExpensesPanel JsFacts SortFacts AggregationFacts.



Section Sorting.
Variable getTime : string -> number.
Variable localeCompare : string -> string -> number.

Local Abbreviation sortedBy := (sortedExpenses getTime localeCompare).


(** X7: whatever the column and the direction, and whatever the collation
    answers, the sorted list is a rearrangement of the expenses: none is
    lost and none is repeated; with no column chosen it is the list as
    fetched. *)
Theorem sorting_rearranges_expenses column direction (expenses : list Expense) :
  sortedBy column direction expenses ≡ₚ expenses
  /\ length (sortedBy column direction expenses) = length expenses
  /\ sortedBy None direction expenses = expenses.
Proof.
  assert (Hperm : sortedBy column direction expenses ≡ₚ expenses) by apply sort_perm.
  split; [exact Hperm|]. split; [by rewrite Hperm|].
  unfold sortedExpenses. induction expenses as [|e l IH]; [reflexivity|].
  cbn [JsArray.sort foldr]. unfold JsArray.sort in IH. rewrite IH; [|apply sort_perm].
  destruct l; reflexivity.
Qed.

End Sorting.

Section Cards.
Variable getTime : string -> number.
Variable localeCompare : string -> string -> number.
Variable formatDate : string -> string.
Variable convertExpenses :
  option User -> Trip -> list Expense -> list ConversionRate -> list Expense.
Variable props : Props.
Variable st : State.

Local Abbreviation rendered :=
  (render getTime localeCompare formatDate convertExpenses props st).

(** X8: the lower part of the panel is the loader while the list is being
    fetched, the "no expenses" card exactly when the conversion returned no
    expense, and otherwise a grid with one card per expense, keyed by the
    expense ids in the sorted order. *)
Theorem render_one_card_per_expense isLoading rawExpenses rates :
  match r_list (rendered isLoading rawExpenses rates) with
  | Loader => isLoading = true
  | NoExpensesYet =>
      isLoading = false
      /\ convertExpenses (p_user props) (p_trip props)
           (default [] rawExpenses) (default [] rates) = []
  | Grid cards =>
      isLoading = false
      /\ map card_key cards
         = map id (sortedExpenses getTime localeCompare (sortBy st) (sortDirection st)
                     (convertExpenses (p_user props) (p_trip props)
                        (default [] rawExpenses) (default [] rates)))
      /\ map card_key cards
         ≡ₚ map id (convertExpenses (p_user props) (p_trip props)
                      (default [] rawExpenses) (default [] rates))
      /\ cards <> []
  end.
Proof.
  unfold render. cbn [r_list].
  destruct isLoading; [reflexivity|].
  set (converted := convertExpenses _ _ _ _).
  assert (Hperm :
    sortedExpenses getTime localeCompare (sortBy st) (sortDirection st) converted
    ≡ₚ converted) by apply sort_perm.
  case_bool_decide as Hlen.
  - split; [reflexivity|]. apply Permutation_length in Hperm.
    rewrite Hlen in Hperm. by destruct converted.
  - split; [reflexivity|]. unfold expenseCards.
    assert (Hkeys : forall m l, map card_key (map (expenseCard formatDate m) l) = map id l).
    { intros m l. rewrite map_map. reflexivity. }
    rewrite Hkeys. split; [reflexivity|]. split; [by rewrite Hperm|].
    intros Hnil. apply Hlen. apply (f_equal length) in Hnil.
    by rewrite length_map in Hnil.
Qed.

End Cards.

(** The map from expense ids to attachments. *)
Lemma expenseAttachmentsMap_snoc tripAttachments l e :
  expenseAttachmentsMap tripAttachments (l ++ [e])
  = <[id e := attachmentsOf tripAttachments e]> (expenseAttachmentsMap tripAttachments l).
Proof. unfold expenseAttachmentsMap. by rewrite fold_left_app. Qed.

Lemma expenseAttachmentsMap_dom tripAttachments l i :
  is_Some (expenseAttachmentsMap tripAttachments l !! i) <-> i ∈ map id l.
Proof.
  induction l as [|e l IH] using rev_ind.
  - unfold expenseAttachmentsMap. cbn. rewrite lookup_empty, elem_of_nil.
    split; [by intros [? ?]|done].
  - rewrite expenseAttachmentsMap_snoc, map_app, elem_of_app. cbn [map].
    rewrite list_elem_of_singleton.
    destruct (decide (id e = i)) as [<-|Hne].
    + rewrite lookup_insert_eq. split; [by right|by eexists].
    + rewrite lookup_insert_ne by done. rewrite IH. split; [by left|].
      intros [H|H]; [exact H|congruence].
Qed.

(** X9: the attachment map has an entry for every expense of the list and
    for no other id, so a card always finds its entry; when the ids are
    distinct the entry of an expense is the list of the trip attachments
    whose id the expense references, and it is empty when the panel was
    given no trip attachments. *)
Theorem attachment_map_entry tripAttachments (expenses : list Expense) e :
  e ∈ expenses ->
  NoDup (map id expenses) ->
  expenseAttachmentsMap tripAttachments expenses !! id e
    = Some (attachmentsOf tripAttachments e)
  /\ (forall i, is_Some (expenseAttachmentsMap tripAttachments expenses !! i)
                <-> i ∈ map id expenses)
  /\ (forall a, a ∈ attachmentsOf tripAttachments e
                <-> a ∈ default [] tripAttachments
                    /\ att_id a ∈ default [] (attachmentReferences e))
  /\ (tripAttachments = None -> attachmentsOf tripAttachments e = []).
Proof.
  intros Hin Hnd. split; [|split; [|split]].
  - induction expenses as [|x l IH] using rev_ind; [by apply elem_of_nil in Hin|].
    rewrite expenseAttachmentsMap_snoc.
    rewrite map_app in Hnd. cbn [map] in Hnd.
    apply NoDup_app in Hnd as (Hl & Hfresh & _).
    apply elem_of_app in Hin as [Hin|Hin].
    + assert (id e <> id x).
      { intros Heq. apply (Hfresh (id e)).
        - apply list_elem_of_fmap. by exists e.
        - rewrite Heq. by left. }
      rewrite lookup_insert_ne by done. by apply IH.
    + apply list_elem_of_singleton in Hin as ->. by rewrite lookup_insert_eq.
  - intros i. apply expenseAttachmentsMap_dom.
  - intros a. unfold attachmentsOf. destruct tripAttachments as [atts|]; cbn.
    + rewrite list_elem_of_In, filter_In, <- list_elem_of_In.
      destruct (attachmentReferences e) as [refs|]; cbn.
      * by rewrite bool_decide_eq_true.
      * rewrite elem_of_nil. split; [by intros [_ ?]|by intros [_ ?]].
    + rewrite elem_of_nil. split; [done|by intros [? _]].
  - by intros ->.
Qed.

Lemma Math_min_le_r a b : (Math_min a b <= b)%Qc.
Proof.
  unfold Math_min. destruct (a ?= b)%Qc eqn:E.
  - apply Qceq_alt in E. subst. apply Qcle_refl.
  - apply Qclt_le_weak. by apply Qclt_alt.
  - apply Qcle_refl.
Qed.

Lemma share_times_budget (total b : number) :
  b <> 0%Qc -> (total / b * num 100 * b)%Qc = (total * num 100)%Qc.
Proof. intros Hb. field. exact Hb. Qed.

Lemma hundred_positive : (0 < num 100)%Qc.
Proof. reflexivity. Qed.

(** X11: the budget ring never shows more than 100; it shows 0 when the
    trip has no budget or a budget that is not positive, 100 as soon as the
    total reaches a positive budget, and the share [total / budget * 100]
    below that; it is not negative when the total is not. *)
Theorem budgetPercentage_bounds props (total : number) :
  (budgetPercentage props total <= num 100)%Qc
  /\ ((budgetAmount props <= 0)%Qc -> budgetPercentage props total = 0%Qc)
  /\ ((0 < budgetAmount props)%Qc -> (budgetAmount props <= total)%Qc ->
      budgetPercentage props total = num 100)
  /\ ((0 < budgetAmount props)%Qc -> (total < budgetAmount props)%Qc ->
      budgetPercentage props total = (total / budgetAmount props * num 100)%Qc
      /\ (budgetPercentage props total < num 100)%Qc)
  /\ ((0 <= total)%Qc -> (0 <= budgetPercentage props total)%Qc).
Proof.
  unfold budgetPercentage.
  set (b := budgetAmount props).
  assert (Hreach : (0 < b)%Qc -> (b <= total)%Qc -> (num 100 <= total / b * num 100)%Qc).
  { intros Hb Hle. apply (Qcmult_lt_0_le_reg_r _ _ b Hb).
    rewrite share_times_budget.
    - rewrite (Qcmult_comm (num 100) b).
      apply Qcmult_le_compat_r; [exact Hle|]. apply Qclt_le_weak, hundred_positive.
    - intros ->. by apply (Qclt_not_le _ _ Hb), Qcle_refl. }
  assert (Hbelow : (0 < b)%Qc -> (total < b)%Qc -> (total / b * num 100 < num 100)%Qc).
  { intros Hb Hlt. apply Qcnot_le_lt. intros Hge.
    apply (Qclt_not_le _ _ Hlt).
    apply (Qcmult_lt_0_le_reg_r _ _ (num 100) hundred_positive).
    rewrite <- (share_times_budget total b).
    - rewrite (Qcmult_comm b (num 100)).
      apply Qcmult_le_compat_r; [exact Hge|]. by apply Qclt_le_weak.
    - intros ->. by apply (Qclt_not_le _ _ Hb), Qcle_refl. }
  assert (Hpos : (0 < b)%Qc -> (0 <= total)%Qc -> (0 <= total / b * num 100)%Qc).
  { intros Hb Hle. apply (Qcmult_lt_0_le_reg_r _ _ b Hb).
    rewrite share_times_budget.
    - rewrite Qcmult_0_l.
      replace 0%Qc with (0 * num 100)%Qc by ring.
      apply Qcmult_le_compat_r; [exact Hle|]. apply Qclt_le_weak, hundred_positive.
    - intros ->. by apply (Qclt_not_le _ _ Hb), Qcle_refl. }
  split; [|split; [|split; [|split]]].
  - destruct (b ?= 0)%Qc; try apply Math_min_le_r; by apply Qclt_le_weak, hundred_positive.
  - intros Hle. destruct (b ?= 0)%Qc eqn:E; try reflexivity.
    apply Qcgt_alt in E. by apply Qclt_not_le in E.
  - intros Hb Hle. rewrite (proj1 (Qcgt_alt _ _) Hb).
    unfold Math_min. destruct (_ ?= num 100)%Qc eqn:E; try reflexivity.
    + by apply Qceq_alt in E.
    + apply Qclt_alt in E. apply Qclt_not_le in E. exfalso. by apply E, Hreach.
  - intros Hb Hlt. rewrite (proj1 (Qcgt_alt _ _) Hb).
    pose proof (Hbelow Hb Hlt) as Hlt100.
    unfold Math_min. rewrite (proj1 (Qclt_alt _ _) Hlt100). by split.
  - intros Hle. destruct (b ?= 0)%Qc eqn:E; try apply Qcle_refl.
    apply Qcgt_alt in E. unfold Math_min.
    destruct (_ ?= num 100)%Qc; try by apply Hpos.
    apply Qclt_le_weak, hundred_positive.
Qed.

(** X12: the currency codes of the rate query are distinct; they contain the
    currency of every fetched expense (USD for an expense without one) and
    the currency the form and the totals default to. *)
Theorem currencyCodes_cover props rawExpenses :
  NoDup (currencyCodes props rawExpenses)
  /\ defaultCurrency props ∈ currencyCodes props rawExpenses
  /\ budgetCurrency props ∈ currencyCodes props rawExpenses
  /\ (forall e c, e ∈ default [] rawExpenses -> cost e = Some c -> Trips.currency c <> "" ->
        Trips.currency c ∈ currencyCodes props rawExpenses)
  /\ (forall e, e ∈ default [] rawExpenses -> cost e = None ->
        "USD" ∈ currencyCodes props rawExpenses).
Proof.
  unfold currencyCodes. split; [apply NoDup_firstSeen|].
  assert (Hexp : forall e, e ∈ default [] rawExpenses ->
    string_or (default "" (Trips.currency <$> cost e)) "USD"
    ∈ default [] (map (fun e => string_or (default "" (Trips.currency <$> cost e)) "USD")
                    <$> rawExpenses)).
  { intros e He. destruct rawExpenses as [l|]; cbn in *; [|by apply elem_of_nil in He].
    apply list_elem_of_fmap. by exists e. }
  split; [|split; [|split]].
  - apply elem_of_firstSeen. unfold defaultCurrency.
    set (b := default "" (Trips.currency <$> budget (p_trip props))).
    set (u := default "" (p_user props ≫= currencyCode)).
    unfold string_or at 1 3. destruct (truthy_string b).
    + by left.
    + unfold string_or. destruct (truthy_string u); right; by left.
  - apply elem_of_firstSeen. by left.
  - intros e c He Hc Hne. apply elem_of_firstSeen. do 2 right.
    specialize (Hexp e He). rewrite Hc in Hexp. cbn in Hexp.
    unfold string_or in Hexp at 1. by rewrite (proj2 (truthy_string_spec _) Hne) in Hexp.
  - intros e He Hc. apply elem_of_firstSeen. do 2 right.
    specialize (Hexp e He). by rewrite Hc in Hexp.
Qed.

Import Samples.

(** X9, at the stored taxi fare. *)
Lemma attachment_map_entry_sample :
  expenseAttachmentsMap None [hotel; taxi] !! "exp1" = Some [].
Proof.
  refine (proj1 (attachment_map_entry None [hotel; taxi] taxi _ _)).
  - rewrite !elem_of_cons. right. by left.
  - apply (bool_decide_unpack _). vm_compute. exact I.
Defined.

End PanelViewFacts.

(** ** The flight form: what a submit does *)

Module FlightSubmitFacts.
Import Js Trips Api FlightForm JsFacts.

(** A rejected call contradicts a backend that rejects nothing. *)
Ltac refute_rejection Hall :=
  destruct Hall as (Racc1 & Racc2 & Racc3 & Racc4 & Racc5 & Racc6); exfalso;
  match goal with
  | E : uploadAttachments _ ?a ?b = None |- _ =>
      destruct (Racc1 a b) as [? H']; rewrite E in H'; discriminate
  | E : createExpense _ ?a = None |- _ =>
      destruct (Racc2 a) as [? H']; rewrite E in H'; discriminate
  | E : updateExpense _ ?a ?b = None |- _ =>
      destruct (Racc3 a b) as [? H']; rewrite E in H'; discriminate
  | E : deleteExpense _ ?a = None |- _ =>
      destruct (Racc4 a) as [? H']; rewrite E in H'; discriminate
  | E : createTransportationEntry _ ?a = None |- _ =>
      destruct (Racc5 a) as [? H']; rewrite E in H'; discriminate
  | E : updateTransportation _ ?a ?b = None |- _ =>
      destruct (Racc6 a b) as [? H']; rewrite E in H'; discriminate
  end.

Ltac ends_with_success :=
  first [ by eexists [] | by eexists [_] | by eexists [_; _] | by eexists [_; _; _] ].

Section Submit.
Variable fakeAsUtcString : string -> string.
Variable remote : Remote.
Variable props : Props.

Local Abbreviation submit := (handleFormSubmit fakeAsUtcString remote props).
Local Abbreviation tripId := (trip_id (p_trip props)).
Local Abbreviation expected := (expenseCall fakeAsUtcString props).

(** Every way a submit can go. *)
Lemma handleFormSubmit_run values st :
  exists st' after,
    submit values st = (Returned tt, st', UploadAttachments tripId (files st) :: after)
    /\ saving st' = false
    /\ files st' = files st
    /\ ((uploadAttachments remote tripId (files st) = None /\ after = [saveFlightFailed])
        \/ (is_Some (uploadAttachments remote tripId (files st))
            /\ exists tail,
                 after = expected values st ++ tail
                 /\ (tail = [saveFlightFailed]
                     \/ exists tcall,
                          is_transportation_call tcall = true
                          /\ (tail = [tcall; OnSuccess]
                              \/ tail = [tcall; saveFlightFailed]))))
    /\ (accepts_all remote -> exists calls, after = calls ++ [OnSuccess]).
Proof.
  unfold handleFormSubmit, run, try_catch_finally, submitBody, syncExpense, expenseCall,
    saveFlightFailed, bind, await, update, emit, ret.
  destruct (uploadAttachments remote tripId (files st)) as [attachments|] eqn:Eupload.
  2: { eexists _, _. split; [reflexivity|]. split; [reflexivity|]. split; [reflexivity|].
       split; [by left|]. intros Hall. refute_rejection Hall. }
  destruct (hasCost values), (truthy (linkedExpenseId props st));
    cbn beta iota;
    try (destruct (updateExpense remote _ _) eqn:Eexpense);
    try (destruct (createExpense remote _) eqn:Eexpense);
    try (destruct (deleteExpense remote _) eqn:Eexpense);
    cbn beta iota;
    destruct (truthy (transportation st ≫= t_id));
    cbn beta iota;
    try (destruct (updateTransportation remote _ _) eqn:Etransport);
    try (destruct (createTransportationEntry remote _) eqn:Etransport);
    eexists _, _;
    (split; [reflexivity|]); (split; [reflexivity|]); (split; [reflexivity|]);
    (split;
     [ right; split; [by eexists|]; eexists; split; [reflexivity|];
       first [ by left
             | right; eexists; split; [|first [by left | by right]]; reflexivity ]
     | intros Hall; first [ ends_with_success | refute_rejection Hall ] ]).
Qed.

(** X13: a submit never throws and always ends with [saving] off and the
    picked files kept.  It makes repository calls only and then exactly one
    report, which comes last: the success callback, or the error
    notification with the title of the form.  If the upload is rejected
    nothing else is called; a backend that rejects nothing leads to the
    success callback. *)
Theorem handleFormSubmit_reports_once values st :
  outcome_of (submit values st) = Returned tt
  /\ saving (state_of (submit values st)) = false
  /\ files (state_of (submit values st)) = files st
  /\ (exists calls final,
        effects_of (submit values st) = calls ++ [final]
        /\ Forall (fun e => is_repository_call e = true) calls
        /\ (final = OnSuccess \/ final = saveFlightFailed)
        /\ (accepts_all remote -> final = OnSuccess)
        /\ (uploadAttachments remote tripId (files st) = None ->
            calls = [UploadAttachments tripId (files st)] /\ final = saveFlightFailed)).
Proof.
  destruct (handleFormSubmit_run values st)
    as (st' & after & -> & Hsaving & Hfiles & Hshape & Hall).
  split; [reflexivity|]. split; [exact Hsaving|]. split; [exact Hfiles|].
  cbn [effects_of snd].
  assert (Hexpected : Forall (fun e => is_repository_call e = true) (expected values st)).
  { unfold expenseCall.
    destruct (hasCost values), (truthy (linkedExpenseId props st)); repeat constructor. }
  destruct Hshape as [[Hu ->] | (Hu & tail & -> & Htail)].
  - exists [UploadAttachments tripId (files st)], saveFlightFailed.
    split; [reflexivity|]. split; [repeat constructor|]. split; [by right|].
    split; [|done]. intros H. destruct (Hall H) as (calls & Hcalls).
    destruct calls as [|? [|? ?]]; discriminate.
  - assert (Hnot : uploadAttachments remote tripId (files st) = None ->
                   False) by (intros E; rewrite E in Hu; by destruct Hu).
    destruct Htail as [-> | (tcall & Htcall & [-> | ->])].
    + exists (UploadAttachments tripId (files st) :: expected values st), saveFlightFailed.
      split; [reflexivity|]. split; [by constructor|]. split; [by right|].
      split; [|by intros E; destruct (Hnot E)].
      intros H. destruct (Hall H) as (calls & Hcalls).
      apply app_inj_tail in Hcalls as [_ [=]].
    + exists (UploadAttachments tripId (files st) :: expected values st ++ [tcall]), OnSuccess.
      split; [by rewrite <- app_comm_cons, <- app_assoc|]. split.
      { constructor; [reflexivity|]. apply Forall_app. split; [exact Hexpected|].
        constructor; [|constructor]. by destruct tcall. }
      split; [by left|]. split; [done|by intros E; destruct (Hnot E)].
    + exists (UploadAttachments tripId (files st) :: expected values st ++ [tcall]),
        saveFlightFailed.
      split; [by rewrite <- app_comm_cons, <- app_assoc|]. split.
      { constructor; [reflexivity|]. apply Forall_app. split; [exact Hexpected|].
        constructor; [|constructor]. by destruct tcall. }
      split; [by right|]. split; [|by intros E; destruct (Hnot E)].
      intros H. destruct (Hall H) as (calls & Hcalls).
      change (expected values st ++ [tcall; saveFlightFailed])
        with (expected values st ++ [tcall] ++ [saveFlightFailed]) in Hcalls.
      rewrite app_assoc in Hcalls.
      apply app_inj_tail in Hcalls as [_ [=]].
Qed.

(** The calls of a submit whose upload was accepted. *)
Lemma handleFormSubmit_after_upload values st :
  is_Some (uploadAttachments remote tripId (files st)) ->
  exists tail,
    effects_of (submit values st)
    = UploadAttachments tripId (files st) :: expected values st ++ tail
    /\ Forall (fun e => is_expense_call e = false) tail.
Proof.
  intros Hu.
  destruct (handleFormSubmit_run values st) as (st' & after & -> & _ & _ & Hshape & _).
  cbn [effects_of snd].
  destruct Hshape as [[E _] | (_ & tail & -> & Htail)].
  { rewrite E in Hu. by destruct Hu. }
  exists tail. split; [reflexivity|].
  destruct Htail as [-> | (tcall & Htcall & [-> | ->])]; repeat constructor;
    by destruct tcall.
Qed.

(** X14: after the upload a submit makes at most one call on the expense
    collection, chosen by the cost entered and by the linked expense: an
    update of the cost alone when a positive cost meets a linked expense, a
    create when a positive cost meets none, a delete when a linked expense
    meets no positive cost, and no call otherwise. *)
Theorem handleFormSubmit_expense_call values st :
  is_Some (uploadAttachments remote tripId (files st)) ->
  exists tail,
    effects_of (submit values st)
    = UploadAttachments tripId (files st) :: expected values st ++ tail
    /\ Forall (fun e => is_expense_call e = false) tail
    /\ (length (expected values st) <= 1)%nat
    /\ (forall expenseId payload,
          UpdateExpense expenseId payload ∈ expected values st ->
          hasCost values = true
          /\ linkedExpenseId props st = Some expenseId
          /\ payload = object [("cost", costRecord values)])
    /\ (forall payload,
          CreateExpense payload ∈ expected values st ->
          hasCost values = true /\ truthy (linkedExpenseId props st) = false
          /\ payload !! "category" = Some (JString "transportation")
          /\ payload !! "occurredOn"
             = Some (JString (fakeAsUtcString (departureTime values))))
    /\ (forall expenseId,
          DeleteExpense expenseId ∈ expected values st ->
          hasCost values = false /\ linkedExpenseId props st = Some expenseId).
Proof.
  intros Hu. destruct (handleFormSubmit_after_upload values st Hu) as (tail & Heff & Htail).
  exists tail. split; [exact Heff|]. split; [exact Htail|].
  assert (Hid : truthy (linkedExpenseId props st) = true ->
                linkedExpenseId props st = Some (default "" (linkedExpenseId props st))).
  { by destruct (linkedExpenseId props st). }
  unfold expenseCall.
  destruct (hasCost values), (truthy (linkedExpenseId props st)) eqn:Hlinked; cbn;
    (split; [lia|]); repeat split;
    try (intros; match goal with H : _ ∈ [] |- _ => by apply elem_of_nil in H end);
    try (match goal with H : _ ∈ [_] |- _ =>
           apply list_elem_of_singleton in H; inversion H; subst; clear H end);
    auto.
Qed.

(** X15: when the expense map is given and does not hold the expense that
    the transportation names, the link is dropped: no call of the submit
    updates or deletes an expense, and a positive cost creates a new one. *)
Theorem stale_expense_link_is_dropped values st expenseMap expenseId :
  p_expenseMap props = Some expenseMap ->
  transportation st ≫= t_expenseId = Some expenseId ->
  expenseMap !! expenseId = None ->
  truthy (linkedExpenseId props st) = false
  /\ Forall (fun e => touches_existing_expense e = false) (effects_of (submit values st))
  /\ (is_Some (uploadAttachments remote tripId (files st)) -> hasCost values = true ->
      CreateExpense (expenseData fakeAsUtcString props values)
      ∈ effects_of (submit values st)).
Proof.
  intros Hmap Hid Hmissing.
  assert (Hlinked : truthy (linkedExpenseId props st) = false).
  { unfold linkedExpenseId. rewrite Hmap, Hid. cbn. rewrite Hmissing.
    destruct (truthy_string expenseId) eqn:E; cbn; [reflexivity|exact E]. }
  assert (Hexpected : Forall (fun e => touches_existing_expense e = false)
                        (expected values st)).
  { unfold expenseCall. rewrite Hlinked. destruct (hasCost values); repeat constructor. }
  split; [exact Hlinked|]. split.
  - destruct (handleFormSubmit_run values st) as (st' & after & -> & _ & _ & Hshape & _).
    cbn [effects_of snd]. constructor; [reflexivity|].
    destruct Hshape as [[_ ->] | (_ & tail & -> & Htail)]; [repeat constructor|].
    apply Forall_app. split; [exact Hexpected|].
    destruct Htail as [-> | (tcall & Htcall & [-> | ->])]; repeat constructor;
      by destruct tcall.
  - intros Hu Hcost.
    destruct (handleFormSubmit_after_upload values st Hu) as (tail & -> & _).
    unfold expenseCall. rewrite Hcost, Hlinked. set_solver.
Qed.

(** X16: a new flight (the form was given no transportation) on a backend
    that rejects nothing is created with the ids of the uploaded files as its
    attachment references and, when a positive cost was entered, with the id
    of the expense just created as its expense; without a positive cost
    its [expenseId] is [undefined] and no expense call is made. *)
Theorem new_flight_is_created_linked values st attachments :
  transportation st = None ->
  uploadAttachments remote tripId (files st) = Some attachments ->
  accepts_all remote ->
  exists payload,
    effects_of (submit values st)
    = UploadAttachments tripId (files st)
        :: expected values st ++ [CreateTransportationEntry payload; OnSuccess]
    /\ payload !! "attachmentReferences" = Some (JStrings (map att_id attachments))
    /\ payload !! "type" = Some (JString "flight")
    /\ (hasCost values = false ->
        expected values st = [] /\ payload !! "expenseId" = Some JUndefined)
    /\ (hasCost values = true ->
        exists created,
          createExpense remote (expenseData fakeAsUtcString props values) = Some created
          /\ expected values st = [CreateExpense (expenseData fakeAsUtcString props values)]
          /\ payload !! "expenseId" = Some (JString (id created))).
Proof.
  intros Hnew Hu Hall.
  assert (Hlinked : linkedExpenseId props st = None).
  { unfold linkedExpenseId. rewrite Hnew. cbn. by destruct (p_expenseMap props). }
  unfold handleFormSubmit, run, try_catch_finally, submitBody, syncExpense, expenseCall,
    bind, await, update, emit, ret.
  rewrite Hu, Hlinked, Hnew. cbn beta iota. cbn [truthy mbind option_bind].
  destruct (hasCost values); cbn beta iota.
  - destruct (createExpense remote _) as [created|] eqn:Ecreate;
      [|refute_rejection Hall].
    cbn beta iota.
    destruct (createTransportationEntry remote _) eqn:Etransport;
      [|refute_rejection Hall].
    eexists. split; [reflexivity|]. split; [reflexivity|]. split; [reflexivity|].
    split; [discriminate|]. intros _. exists created. by repeat split.
  - destruct (createTransportationEntry remote _) eqn:Etransport;
      [|refute_rejection Hall].
    eexists. split; [reflexivity|]. split; [reflexivity|]. split; [reflexivity|].
    split; [by intros _|discriminate].
Qed.

(** X17: nothing is undone.  When the expense of a flight has been created
    and the call that saves the transportation is then rejected, the submit
    ends with the error notification; the expense stays, unreferenced. *)
Theorem created_expense_survives_failed_flight values st attachments created :
  hasCost values = true ->
  truthy (linkedExpenseId props st) = false ->
  uploadAttachments remote tripId (files st) = Some attachments ->
  createExpense remote (expenseData fakeAsUtcString props values) = Some created ->
  (forall payload, createTransportationEntry remote payload = None) ->
  (forall transportationId payload,
     updateTransportation remote transportationId payload = None) ->
  exists tcall,
    is_transportation_call tcall = true
    /\ effects_of (submit values st)
       = [UploadAttachments tripId (files st);
          CreateExpense (expenseData fakeAsUtcString props values);
          tcall;
          saveFlightFailed].
Proof.
  intros Hcost Hlinked Hu Hcreate Hct Hut.
  unfold handleFormSubmit, run, try_catch_finally, submitBody, syncExpense,
    saveFlightFailed, bind, await, update, emit, ret.
  rewrite Hu. cbn beta iota. rewrite Hcost, Hlinked. cbn beta iota.
  rewrite Hcreate. cbn beta iota.
  destruct (truthy (transportation st ≫= t_id)); cbn beta iota.
  - rewrite Hut. eexists. split; [|reflexivity]. reflexivity.
  - rewrite Hct. eexists. split; [|reflexivity]. reflexivity.
Qed.

(** The linked expense of the initial values is the expense whose id the
    submit keeps. *)
Lemma linkedExpense_linkedExpenseId st expense :
  linkedExpense props st = Some expense ->
  exists expenseId,
    linkedExpenseId props st = Some expenseId
    /\ truthy (Some expenseId) = true
    /\ transportation st ≫= t_expenseId = Some expenseId.
Proof.
  unfold linkedExpense, linkedExpenseId.
  destruct (transportation st ≫= t_expenseId) as [expenseId|]; [|discriminate].
  destruct (truthy (Some expenseId)) eqn:Htruthy; [|discriminate].
  destruct (p_expenseMap props) as [expenseMap|]; [|discriminate].
  cbn. intros Hget. exists expenseId. rewrite Hget. cbn. by repeat split.
Qed.

(** X18: a flight with a linked expense, submitted with the cost the form
    was opened with.  If the stored cost is positive the expense is updated
    with that same value; if the expense has no cost or a cost that is not
    positive, the submit deletes it. *)
Theorem unchanged_cost_updates_or_deletes values st expense :
  linkedExpense props st = Some expense ->
  cost values = initialCost props st ->
  is_Some (uploadAttachments remote tripId (files st)) ->
  exists expenseId expenseStep tail,
    transportation st ≫= t_expenseId = Some expenseId
    /\ effects_of (submit values st)
       = UploadAttachments tripId (files st) :: expenseStep :: tail
    /\ Forall (fun e => is_expense_call e = false) tail
    /\ ((exists c,
           Trips.cost expense = Some c /\ (0 < value c)%Qc
           /\ expenseStep
              = UpdateExpense expenseId
                  (object [("cost", money_record (JNumber (value c)) (currencyCode values))]))
        \/ ((Trips.cost expense = None
             \/ exists c, Trips.cost expense = Some c /\ (value c <= 0)%Qc)
            /\ expenseStep = DeleteExpense expenseId)).
Proof.
  intros Hexpense Hcost Hu.
  destruct (linkedExpense_linkedExpenseId st expense Hexpense)
    as (expenseId & Hlinked & Htruthy & Hid).
  destruct (handleFormSubmit_after_upload values st Hu) as (tail & Heff & Htail).
  unfold initialCost in Hcost. rewrite Hexpense in Hcost. cbn in Hcost.
  assert (Hexpected :
    expected values st =
    [if hasCost values
     then UpdateExpense expenseId (object [("cost", costRecord values)])
     else DeleteExpense expenseId]).
  { unfold expenseCall. rewrite Hlinked, Htruthy. by destruct (hasCost values). }
  rewrite Hexpected in Heff.
  exists expenseId. eexists. exists tail.
  split; [exact Hid|]. split; [exact Heff|]. split; [exact Htail|].
  unfold hasCost, costRecord. rewrite Hcost.
  destruct (Trips.cost expense) as [c|]; cbn.
  - destruct (Qclt_le_dec 0 (value c)) as [Hpos|Hneg].
    + left. exists c. split; [reflexivity|]. split; [exact Hpos|].
      rewrite bool_decide_eq_true_2 by exact Hpos.
      assert (Hnz : truthy_number (value c) = true).
      { apply truthy_number_spec. intros Hz. rewrite Hz in Hpos.
        by apply (Qclt_not_le _ _ Hpos), Qcle_refl. }
      by rewrite Hnz.
    + right. split; [right; by exists c|].
      rewrite (bool_decide_eq_false_2 (0 < value c)%Qc)
        by (by apply Qcle_not_lt).
      by rewrite andb_false_r.
  - right. split; [by left|reflexivity].
Qed.

End Submit.

Import Samples.

Lemma accepting_accepts_all : accepts_all accepting.
Proof. repeat split; intros; by eexists. Qed.

(** X14, at the stored flight whose expense is in the map. *)
Lemma handleFormSubmit_expense_call_sample :
  expenseCall asWritten flightProps (flightValues (Some (num 120)))
    (storedFlight (Some "exp1"))
  = [UpdateExpense "exp1" (object [("cost", money_record (JNumber (num 120)) "USD")])]
  /\ exists tail,
       effects_of (handleFormSubmit asWritten accepting flightProps
                     (flightValues (Some (num 120))) (storedFlight (Some "exp1")))
       = UploadAttachments "trip1" []
           :: expenseCall asWritten flightProps (flightValues (Some (num 120)))
                (storedFlight (Some "exp1")) ++ tail
       /\ Forall (fun e => is_expense_call e = false) tail.
Proof.
  split; [reflexivity|].
  destruct (handleFormSubmit_expense_call asWritten accepting flightProps
              (flightValues (Some (num 120))) (storedFlight (Some "exp1"))
              (ex_intro _ [] eq_refl)) as (tail & Heff & Htail & _).
  exists tail. by split.
Defined.

(** X15, at a stored flight that names an expense the map does not hold. *)
Lemma stale_expense_link_sample :
  Forall (fun e => touches_existing_expense e = false)
    (effects_of (handleFormSubmit asWritten accepting flightProps
                   (flightValues None) (storedFlight (Some "gone")))).
Proof.
  exact (proj1 (proj2 (stale_expense_link_is_dropped asWritten accepting flightProps
                         (flightValues None) (storedFlight (Some "gone"))
                         {[ "exp1" := taxi ]} "gone" eq_refl eq_refl eq_refl))).
Defined.

(** X16, at a new flight with a cost of 120. *)
Lemma new_flight_sample :
  exists payload,
    effects_of (handleFormSubmit asWritten accepting flightProps
                  (flightValues (Some (num 120))) newFlight)
    = UploadAttachments "trip1" []
        :: expenseCall asWritten flightProps (flightValues (Some (num 120))) newFlight
           ++ [CreateTransportationEntry payload; OnSuccess]
    /\ payload !! "attachmentReferences" = Some (JStrings []).
Proof.
  destruct (new_flight_is_created_linked asWritten accepting flightProps
              (flightValues (Some (num 120))) newFlight [] eq_refl eq_refl
              accepting_accepts_all) as (payload & Heff & Hrefs & _).
  exists payload. by split.
Defined.

(** X17, at a new flight with a cost of 120. *)
Lemma created_expense_survives_sample :
  exists tcall,
    is_transportation_call tcall = true
    /\ effects_of (handleFormSubmit asWritten flightsRejected flightProps
                     (flightValues (Some (num 120))) newFlight)
       = [UploadAttachments "trip1" [];
          CreateExpense (expenseData asWritten flightProps (flightValues (Some (num 120))));
          tcall;
          saveFlightFailed].
Proof.
  exact (created_expense_survives_failed_flight asWritten flightsRejected flightProps
           (flightValues (Some (num 120))) newFlight [] savedExpense
           eq_refl eq_refl eq_refl eq_refl (fun _ => eq_refl) (fun _ _ => eq_refl)).
Defined.

(** X18, at the stored flight linked to the taxi fare of 30. *)
Lemma unchanged_cost_sample :
  exists expenseId expenseStep tail,
    transportation (storedFlight (Some "exp1")) ≫= t_expenseId = Some expenseId
    /\ effects_of (handleFormSubmit asWritten accepting flightProps
                     (flightValues (Some (num 30))) (storedFlight (Some "exp1")))
       = UploadAttachments "trip1" [] :: expenseStep :: tail.
Proof.
  destruct (unchanged_cost_updates_or_deletes asWritten accepting flightProps
              (flightValues (Some (num 30))) (storedFlight (Some "exp1")) taxi
              eq_refl eq_refl (ex_intro _ [] eq_refl))
    as (expenseId & expenseStep & tail & Hid & Heff & _).
  exists expenseId, expenseStep, tail. by split.
Defined.

End FlightSubmitFacts.

(** ** The repository: attaching files, and what a listing keeps *)

Module RepositoryMoreFacts.
Import Js Trips Api Repository.

(** X19: [addAttachmentsToExpense] updates the expense only after the upload
    was accepted; the update carries the ids of the uploaded attachments
    under the appending key [attachmentReferences+] and no other field, so
    it never replaces the references the expense already has; the uploaded
    attachments are returned when the update is accepted. *)
Theorem addAttachmentsToExpense_appends_ids remote tripId expenseId files :
  match uploadAttachments remote tripId files with
  | None =>
      addAttachmentsToExpense remote tripId expenseId files
      = (Thrown, tt, [UploadAttachments tripId files])
  | Some uploaded =>
      exists payload,
        effects_of (addAttachmentsToExpense remote tripId expenseId files)
        = [UploadAttachments tripId files; UpdateExpense expenseId payload]
        /\ payload !! "attachmentReferences+" = Some (JStrings (map att_id uploaded))
        /\ (forall k, k <> "attachmentReferences+" -> payload !! k = None)
        /\ outcome_of (addAttachmentsToExpense remote tripId expenseId files)
           = match updateExpense remote expenseId payload with
             | Some _ => Returned uploaded
             | None => Thrown
             end
  end.
Proof.
  unfold addAttachmentsToExpense, run, bind, await, ret.
  destruct (uploadAttachments remote tripId files) as [uploaded|]; [|reflexivity].
  cbn beta iota. eexists. split; [|split; [|split]].
  - by destruct (updateExpense remote expenseId _).
  - reflexivity.
  - intros k Hk. unfold object. cbn. by rewrite lookup_insert_ne.
  - by destruct (updateExpense remote expenseId _).
Qed.

(** X20: a listing passes a rejection of the request on, and otherwise
    returns the records of the page one for one and in the same order;
    apart from [occurredOn] every field of a record is as the backend sent
    it. *)
Theorem listExpenses_keeps_the_page convertSavedToBrowserDate getList tripId :
  (getList 1%nat 200%nat
     {| filter := tripFilter tripId; sort := "-occurredOn,-created" |} = None ->
   listExpenses convertSavedToBrowserDate getList tripId = None)
  /\ (forall items,
        getList 1%nat 200%nat
          {| filter := tripFilter tripId; sort := "-occurredOn,-created" |} = Some items ->
        exists entries,
          listExpenses convertSavedToBrowserDate getList tripId = Some entries
          /\ length entries = length items
          /\ map id entries = map id items
          /\ map name entries = map name items
          /\ map cost entries = map cost items
          /\ map category entries = map category items
          /\ map notes entries = map notes items
          /\ map attachmentReferences entries = map attachmentReferences items).
Proof.
  unfold listExpenses. split.
  - by intros ->.
  - intros items ->. cbn. eexists. split; [reflexivity|].
    rewrite length_map, !map_map. by repeat split.
Qed.

End RepositoryMoreFacts.

(** ** The application shell *)

Module SurmaiFacts.
Import Js Surmai JsFacts.

Lemma localeFor_cases language :
  localeFor language = None
  \/ localeFor language = Some ("es-mx", "es-mx")
  \/ localeFor language = Some ("fr", "fr-FR")
  \/ localeFor language = Some ("ja", "ja-JP").
Proof.
  unfold localeFor. repeat case_bool_decide; cbn; auto.
Qed.

Lemma step_coherent st ev : coherent st -> coherent (step st ev).
Proof.
  intros [Hlocale Hcolor]. destruct ev as [language imported|colorScheme|colorName]; cbn.
  - destruct (localeFor_cases language) as [-> | [-> | [-> | ->]]];
      destruct imported; split; cbn; auto 6.
  - destruct colorScheme as [c|]; [|by split].
    destruct (truthy_string c) eqn:Hc; [|by split].
    split; [exact Hlocale|]. by apply truthy_string_spec.
  - destruct colorName as [c|]; [|by split].
    destruct (truthy_string c) eqn:Hc; [|by split].
    split; [exact Hlocale|]. by apply truthy_string_spec.
Qed.

Lemma fold_coherent events st : coherent st -> coherent (fold_left step events st).
Proof.
  revert st. induction events as [|ev events IH]; intros st Hst; [exact Hst|].
  cbn. apply IH. by apply step_coherent.
Qed.

(** X21: whatever languages are tried, whatever imports fail and whatever
    colours are asked for, the date pickers get one of the four locales
    [en], [es-mx], [fr-FR] and [ja-JP], [dayjs] uses the locale of the same
    language, and the primary colour is never empty.  An unknown language or
    a failed import changes nothing, and so does a colour that is missing or
    empty. *)
Theorem shell_locale_and_colour_invariant (events : list Event) :
  datesLocale (after events) ∈ ["en"; "es-mx"; "fr-FR"; "ja-JP"]
  /\ (datesLocale (after events), dayjsLocale (after events))
     ∈ [("en", "en"); ("es-mx", "es-mx"); ("fr-FR", "fr"); ("ja-JP", "ja")]
  /\ primaryColor (after events) <> ""
  /\ (forall st language, step st (LanguageEffect language false) = st)
  /\ (forall st language imported,
        localeFor language = None -> step st (LanguageEffect language imported) = st)
  /\ (forall st, step st (ChangeColor None) = st /\ step st (ChangeColor (Some "")) = st
                 /\ step st (UserLoaded None) = st /\ step st (UserLoaded (Some "")) = st).
Proof.
  assert (Hinv : coherent (after events)).
  { apply fold_coherent. split; [by left|discriminate]. }
  destruct Hinv as [Hlocale Hcolor]. unfold datesLocale.
  split; [|split; [|split; [exact Hcolor|split; [|split]]]].
  - destruct Hlocale as [[-> _] | [[-> _] | [[-> _] | [-> _]]]]; cbn; set_solver.
  - destruct Hlocale as [[-> ->] | [[-> ->] | [[-> ->] | [-> ->]]]]; cbn; set_solver.
  - intros st language. cbn. by destruct (localeFor language) as [[? ?]|].
  - intros st language imported Hnone. cbn. by rewrite Hnone.
  - intros st. by repeat split.
Qed.

End SurmaiFacts.
